(** * Reconciliation core of the collaborative block-editor rooms

    A shallow embedding of the Svelte components of the repository:

    - [src/lib/Editor.svelte]: the bridge to the embedded editor frame
      ([loadCode], [loadRoomState], [handleMessage], [debounce] and the
      reactive effect that watches the [initCode] property);
    - the room page that embeds the editor ([unnamed/part_000]): the shared
      [Y.Map]s, [handleEditorContentChange], the pointer handlers, the
      observers, the provider's status listener and [cleanup];
    - [src/routes/[room]/+page.svelte]: the pointer-only room page, whose
      handlers are the same functions over a smaller state.

    Values are the dynamically typed values the handlers pass around
    (everything is [any] in the source).  The platform functions the code
    calls ([JSON.parse], [JSON.stringify] and the coercing part of [==])
    are an interface, [Host]; the handlers are written against it, and a
    reference implementation is given for the examples.  The platform's
    timer table, [setTimeout] and [clearTimeout], is explicit state: a
    timeout is pending from its creation until the platform fires it or it
    is cleared, and the delay it was created with is recorded but the clock
    is not modelled.  Debug logging ([debug], [console.log]) is left out. *)

From Stdlib Require Import ZArith Ascii String List Bool Lia DecimalString.
From Stdlib Require PrimFloat.
From stdpp Require Import base option list gmap strings.

Set Warnings "-register-all".
Local Open Scope Z_scope.
Local Open Scope string_scope.
Local Open Scope list_scope.

(** ** Values *)

Inductive value : Type :=
| VUndefined
| VNull
| VBool (b : bool)
| VNum (n : Z)
| VStr (s : string)
| VArr (items : list value)
| VObj (fields : list (string * value)).

(** [!!v] of the language: what an [if (v)] takes as true. *)
Definition truthy (v : value) : bool :=
  match v with
  | VUndefined | VNull => false
  | VBool b => b
  | VNum n => negb (Z.eqb n 0)
  | VStr s => negb (String.eqb s "")
  | VArr _ | VObj _ => true
  end.

(** [a || b]. *)
Definition or_else (a b : value) : value := if truthy a then a else b.

Fixpoint assoc (k : string) (fs : list (string * value)) : option value :=
  match fs with
  | [] => None
  | (k', v) :: rest => if String.eqb k k' then Some v else assoc k rest
  end.

(** [v.k] where [v] is known not to be [null] or [undefined]: own fields of
    an object, [undefined] on anything else (none of the property names the
    handlers read is a built-in of strings, arrays, numbers or booleans). *)
Definition prop (k : string) (v : value) : value :=
  match v with
  | VObj fs => default VUndefined (assoc k fs)
  | _ => VUndefined
  end.

(** Errors a handler can let escape. *)
Inductive js_error := TypeError | SyntaxError.

(** Completion of a piece of code: it returns normally or throws. *)
Inductive completion (A : Type) : Type :=
| Normal (a : A)
| Throw (e : js_error).
Arguments Normal {A} a.
Arguments Throw {A} e.

(** [v.k] with no guard before it: reading a property of [null] or
    [undefined] throws a [TypeError]. *)
Definition get (k : string) (v : value) : completion value :=
  match v with
  | VUndefined | VNull => Throw TypeError
  | _ => Normal (prop k v)
  end.

(** ** The platform interface *)

Class Host := {
  (** [JSON.stringify(v)]: a text, or [undefined] ([None]). *)
  JSON_stringify : value -> option string;
  (** [JSON.parse(v)]: a value, or a [SyntaxError] ([None]).  The argument
      is converted to a string by the platform first. *)
  JSON_parse : value -> option value;
  (** [v == s] for a string [s] when [v] is a number, a boolean, an array
      or an object, which the platform compares after coercion. *)
  coerced_eq : value -> string -> bool
}.

(** [v == s] for a string [s]. *)
Definition abstract_eq `{Host} (v : value) (s : string) : bool :=
  match v with
  | VStr t => String.eqb t s
  | VUndefined | VNull => false
  | _ => coerced_eq v s
  end.

(** A string or [undefined], as [JSON.stringify] returns it. *)
Definition text_value (o : option string) : value :=
  match o with
  | Some s => VStr s
  | None => VUndefined
  end.

(** [JSON.parse(JSON.stringify(code))]. *)
Definition JSON_clone `{Host} (code : value) : option value :=
  JSON_parse (text_value (JSON_stringify code)).

(** Pointer coordinates are the platform's double-precision numbers. *)
Record PresenceEntry := {
  entry_x : PrimFloat.float;
  entry_y : PrimFloat.float;
  entry_color : string
}.


(** ** The platform's timers *)

(** The function handed to [debounce]: the effect's closure is the only one. *)
Inductive callback := ApplyRoomState.

(** What a pending timeout runs: the wrapper [debounce] builds around its
    argument, or the room page's [syncStatus = 'idle']. *)
Inductive task :=
| Debounced (fn : callback)
| ResetSyncStatus.

Record timer := {
  timer_id : nat;
  timer_task : task;
  timer_delay : Z
}.

Record Timers := {
  pending : list timer;
  next_id : nat
}.

(** [setTimeout(k, delay)]: a fresh identifier and the table with the new
    timeout. *)
Definition setTimeout (k : task) (delay : Z) (T : Timers) : nat * Timers :=
  (next_id T,
   {| pending := pending T ++ [{| timer_id := next_id T; timer_task := k; timer_delay := delay |}];
      next_id := S (next_id T) |}).

(** [clearTimeout(id)]: nothing happens when no such timeout is pending. *)
Definition clearTimeout (id : nat) (T : Timers) : Timers :=
  {| pending := List.filter (fun t => negb (Nat.eqb (timer_id t) id)) (pending T);
     next_id := next_id T |}.

Definition find_timer (id : nat) (T : Timers) : option timer :=
  List.find (fun t => Nat.eqb (timer_id t) id) (pending T).

Definition is_debounced (t : timer) : bool :=
  match timer_task t with
  | Debounced _ => true
  | ResetSyncStatus => false
  end.

(** The deferred applies that are pending. *)
Definition pending_applies (T : Timers) : list timer :=
  List.filter is_debounced (pending T).

(** ** The pointer page: [src/routes/[room]/+page.svelte]

    The room page with the editor declares the same variables and the same
    [handleMouseMove], [handleMouseLeave] and teardown, so its state contains
    a [Session]. *)

(** Calls made to the shared-state client, in the order they are made. *)
Inductive Call :=
| MouseSet (id : string) (p : PresenceEntry)
| MouseDelete (id : string)
| BlockSet (key : string) (v : value)
| ProviderDisconnect.

Record Session := {
  users : gmap string PresenceEntry;
  myId : string;
  connected : bool;
  userId : string;
  userColor : string;
  (** [let mousePositions: Y.Map]: [None] until the page is mounted. *)
  mousePositions : option (gmap string PresenceEntry);
  (** [let provider]: [None] until mounted, then whether it holds its
      connection open. *)
  provider : option bool;
  (** History of the calls made to the shared-state client. *)
  wire : list Call
}.

Definition set_users (u : gmap string PresenceEntry) (s : Session) : Session :=
  {| users := u; myId := myId s; connected := connected s; userId := userId s;
     userColor := userColor s; mousePositions := mousePositions s;
     provider := provider s; wire := wire s |}.

Definition set_myId (i : string) (s : Session) : Session :=
  {| users := users s; myId := i; connected := connected s; userId := userId s;
     userColor := userColor s; mousePositions := mousePositions s;
     provider := provider s; wire := wire s |}.

Definition set_connected (b : bool) (s : Session) : Session :=
  {| users := users s; myId := myId s; connected := b; userId := userId s;
     userColor := userColor s; mousePositions := mousePositions s;
     provider := provider s; wire := wire s |}.

Definition set_mousePositions (m : option (gmap string PresenceEntry)) (s : Session) : Session :=
  {| users := users s; myId := myId s; connected := connected s; userId := userId s;
     userColor := userColor s; mousePositions := m;
     provider := provider s; wire := wire s |}.

Definition set_provider (p : option bool) (s : Session) : Session :=
  {| users := users s; myId := myId s; connected := connected s; userId := userId s;
     userColor := userColor s; mousePositions := mousePositions s;
     provider := p; wire := wire s |}.

Definition call (c : Call) (s : Session) : Session :=
  {| users := users s; myId := myId s; connected := connected s; userId := userId s;
     userColor := userColor s; mousePositions := mousePositions s;
     provider := provider s; wire := wire s ++ [c] |}.

(** The part of a [MouseEvent] the handler reads: the pointer and the
    bounding rectangle of the tracking area. *)
Record MouseEvent := {
  clientX : PrimFloat.float;
  clientY : PrimFloat.float;
  bounds_left : PrimFloat.float;
  bounds_top : PrimFloat.float
}.

(** The position [handleMouseMove] reports for an event. *)
Definition position (color : string) (ev : MouseEvent) : PresenceEntry :=
  {| entry_x := PrimFloat.sub (clientX ev) (bounds_left ev);
     entry_y := PrimFloat.sub (clientY ev) (bounds_top ev);
     entry_color := color |}.

Definition handleMouseMove (ev : MouseEvent) (s : Session) : Session :=
  match mousePositions s with
  | None => s
  | Some m =>
      if negb (connected s) then s
      else
        let p := position (userColor s) ev in
        call (MouseSet (userId s) p)
          (set_mousePositions (Some (<[userId s := p]> m)) s)
  end.

Definition handleMouseLeave (s : Session) : Session :=
  match mousePositions s with
  | Some m =>
      if connected s
      then call (MouseDelete (userId s))
             (set_mousePositions (Some (delete (userId s) m)) s)
      else s
  | None => s
  end.

(** The callback given to [mousePositions.observe]: the local view becomes
    a copy of the map. *)
Definition observeMousePositions (s : Session) : Session :=
  match mousePositions s with
  | Some m => set_users m s
  | None => s
  end.

(** The pointer page's [provider.on('status', ...)]. *)
Definition onStatus (status : string) (s : Session) : Session :=
  set_connected (String.eqb status "connected") s.

(** [onMount] of the pointer page: a new document, whose map is empty, the
    provider, and the displayed identifier. *)
Definition onMount (s : Session) : Session :=
  set_myId (userId s) (set_mousePositions (Some ∅) (set_provider (Some true) s)).

(** An update of the replica that comes from the relay, and the observer
    the store then calls. *)
Definition remoteMousePositions (m : gmap string PresenceEntry) (s : Session) : Session :=
  match mousePositions s with
  | Some _ => observeMousePositions (set_mousePositions (Some m) s)
  | None => s
  end.

(** [onDestroy] of the pointer page, and the two statements of [cleanup]. *)
Definition onDestroy (s : Session) : Session :=
  let s1 :=
    match mousePositions s with
    | Some m =>
        if connected s
        then call (MouseDelete (userId s))
               (set_mousePositions (Some (delete (userId s) m)) s)
        else s
    | None => s
    end in
  match provider s1 with
  | Some _ => call ProviderDisconnect (set_provider (Some false) s1)
  | None => s1
  end.

(** A sequence of pointer moves, oldest first. *)
Definition pointerMoves (evs : list MouseEvent) (s : Session) : Session :=
  fold_left (fun s ev => handleMouseMove ev s) evs s.

(** ** The room page with the editor *)

Inductive SyncStatus := Idle | Sending | Receiving.

Record Room := {
  session : Session;
  editorContent : value;
  lastEditorUpdate : value;
  syncStatus : SyncStatus;
  (** [let blockContent: Y.Map<any>]: [None] until [initRoom]. *)
  blockContent : option (gmap string value)
}.

Definition set_session (x : Session) (r : Room) : Room :=
  {| session := x; editorContent := editorContent r;
     lastEditorUpdate := lastEditorUpdate r; syncStatus := syncStatus r;
     blockContent := blockContent r |}.

Definition set_editorContent (x : value) (r : Room) : Room :=
  {| session := session r; editorContent := x;
     lastEditorUpdate := lastEditorUpdate r; syncStatus := syncStatus r;
     blockContent := blockContent r |}.

Definition set_lastEditorUpdate (x : value) (r : Room) : Room :=
  {| session := session r; editorContent := editorContent r;
     lastEditorUpdate := x; syncStatus := syncStatus r;
     blockContent := blockContent r |}.

Definition set_syncStatus (x : SyncStatus) (r : Room) : Room :=
  {| session := session r; editorContent := editorContent r;
     lastEditorUpdate := lastEditorUpdate r; syncStatus := x;
     blockContent := blockContent r |}.

Definition set_blockContent (x : option (gmap string value)) (r : Room) : Room :=
  {| session := session r; editorContent := editorContent r;
     lastEditorUpdate := lastEditorUpdate r; syncStatus := syncStatus r;
     blockContent := x |}.

(** [blockContent.get(k)]: [undefined] for a key the map does not hold. *)
Definition block_get (k : string) (bc : gmap string value) : value :=
  default VUndefined (bc !! k).

(** [blockContent.set(k, v)] on the handle [bc]. *)
Definition block_set (k : string) (v : value) (r : Room) : Room :=
  match blockContent r with
  | Some bc =>
      set_session (call (BlockSet k v) (session r))
        (set_blockContent (Some (<[k := v]> bc)) r)
  | None => r
  end.

(** The object [{ data, timestamp, origin }] the page hands to the editor. *)
Definition content_record (data timestamp origin : value) : value :=
  VObj [("data", data); ("timestamp", timestamp); ("origin", origin)].

(** [handleEditorContentChange(content)]; [now] is what [Date.now()]
    returns during the call. *)
Definition handleEditorContentChange (content : value) (now : Z)
    (r : Room) (T : Timers) : Room * Timers :=
  match blockContent r with
  | None => (r, T)
  | Some _ =>
      if negb (connected (session r)) then (r, T)
      else if negb (truthy content) || negb (truthy (prop "data" content)) then (r, T)
      else
        let timestamp := or_else (prop "timestamp" content) (VNum now) in
        let origin := or_else (prop "origin" content) (VStr "") in
        let r1 := set_syncStatus Sending r in
        let r2 := block_set "content" (prop "data" content) r1 in
        let r3 := block_set "timestamp" timestamp r2 in
        let r4 := block_set "origin" origin r3 in
        let r5 := set_lastEditorUpdate timestamp r4 in
        (r5, snd (setTimeout ResetSyncStatus 500 T))
  end.

(** The callback given to [blockContent.observe].  Its log line formats the
    stored timestamp as a date; the stored timestamp is taken to be one the
    platform can format. *)
Definition observeBlockContent (r : Room) (T : Timers) : Room * Timers :=
  match blockContent r with
  | None => (r, T)
  | Some bc =>
      let content := block_get "content" bc in
      if truthy content then
        let timestamp := or_else (block_get "timestamp" bc) (VNum 0) in
        let origin := or_else (block_get "origin" bc) (VStr "") in
        let r1 := set_syncStatus Receiving r in
        let r2 := set_editorContent (content_record content timestamp origin) r1 in
        let r3 := set_lastEditorUpdate timestamp r2 in
        (r3, snd (setTimeout ResetSyncStatus 500 T))
      else (r, T)
  end.

(** An update of the content replica that comes from the relay, and the
    observer the store then calls. *)
Definition remoteBlockContent (bc : gmap string value) (r : Room) (T : Timers)
    : Room * Timers :=
  match blockContent r with
  | Some _ => observeBlockContent (set_blockContent (Some bc) r) T
  | None => (r, T)
  end.

(** The listener given to [provider.on('status', ...)] in [initRoom]. *)
Definition onProviderStatus (status : string) (now : Z) (r : Room)
    : Room * completion unit :=
  let wasConnected := connected (session r) in
  let r1 := set_session (set_connected (String.eqb status "connected") (session r)) r in
  if connected (session r1) && negb wasConnected then
    match blockContent r1 with
    | None => (r1, Throw TypeError)
    | Some bc =>
        let existingContent := block_get "content" bc in
        if truthy existingContent then
          (set_editorContent
             (content_record existingContent
                (or_else (block_get "timestamp" bc) (VNum now))
                (or_else (block_get "origin" bc) (VStr "")))
             r1,
           Normal tt)
        else (r1, Normal tt)
    end
  else (r1, Normal tt).

(** [initRoom()]: the mount of the pointer page, and the content map of the
    new document. *)
Definition initRoom (r : Room) : Room :=
  set_blockContent (Some ∅) (set_session (onMount (session r)) r).

(** [cleanup()]. *)
Definition cleanup (r : Room) : Room :=
  set_session (onDestroy (session r)) r.

(** The timeout that ends a [sending] or [receiving] display. *)
Definition resetSyncStatus (r : Room) : Room := set_syncStatus Idle r.

(** ** The editor bridge: [src/lib/Editor.svelte]

    The property [initCode] is an argument of the functions that read it;
    a call of the property [onContentChange] is the value a handler
    returns. *)

Record Editor := {
  editorReady : bool;
  codeLoaded : bool;
  localUserId : string;
  lastRoomState : value;
  (** [undefined] is [None]. *)
  debounceTimer : option nat;
  (** Whether [iframe?.contentWindow] is there. *)
  contentWindow : bool;
  (** The messages posted to the frame, oldest first. *)
  posted : list value;
  (** History of the arguments [loadCode] was called with, oldest first. *)
  loads : list value
}.

Definition set_editorReady (x : bool) (e : Editor) : Editor :=
  {| editorReady := x; codeLoaded := codeLoaded e; localUserId := localUserId e;
     lastRoomState := lastRoomState e; debounceTimer := debounceTimer e;
     contentWindow := contentWindow e; posted := posted e; loads := loads e |}.

Definition set_codeLoaded (x : bool) (e : Editor) : Editor :=
  {| editorReady := editorReady e; codeLoaded := x; localUserId := localUserId e;
     lastRoomState := lastRoomState e; debounceTimer := debounceTimer e;
     contentWindow := contentWindow e; posted := posted e; loads := loads e |}.

Definition set_lastRoomState (x : value) (e : Editor) : Editor :=
  {| editorReady := editorReady e; codeLoaded := codeLoaded e; localUserId := localUserId e;
     lastRoomState := x; debounceTimer := debounceTimer e;
     contentWindow := contentWindow e; posted := posted e; loads := loads e |}.

Definition set_debounceTimer (x : option nat) (e : Editor) : Editor :=
  {| editorReady := editorReady e; codeLoaded := codeLoaded e; localUserId := localUserId e;
     lastRoomState := lastRoomState e; debounceTimer := x;
     contentWindow := contentWindow e; posted := posted e; loads := loads e |}.

Definition set_contentWindow (x : bool) (e : Editor) : Editor :=
  {| editorReady := editorReady e; codeLoaded := codeLoaded e; localUserId := localUserId e;
     lastRoomState := lastRoomState e; debounceTimer := debounceTimer e;
     contentWindow := x; posted := posted e; loads := loads e |}.

(** [iframe.contentWindow.postMessage(m, '*')]. *)
Definition postMessage (m : value) (e : Editor) : Editor :=
  {| editorReady := editorReady e; codeLoaded := codeLoaded e; localUserId := localUserId e;
     lastRoomState := lastRoomState e; debounceTimer := debounceTimer e;
     contentWindow := contentWindow e; posted := posted e ++ [m]; loads := loads e |}.

Definition record_load (code : value) (e : Editor) : Editor :=
  {| editorReady := editorReady e; codeLoaded := codeLoaded e; localUserId := localUserId e;
     lastRoomState := lastRoomState e; debounceTimer := debounceTimer e;
     contentWindow := contentWindow e; posted := posted e; loads := loads e ++ [code] |}.

(** The message [{ type: 'blocks.updateProject', data }]. *)
Definition update_message (data : value) : value :=
  VObj [("type", VStr "blocks.updateProject"); ("data", data)].

(** [loadCode(code)]: the [catch] swallows a failure of the clone. *)
Definition loadCode `{Host} (code : value) (e : Editor) : Editor :=
  let e := record_load code e in
  if negb (editorReady e) || negb (contentWindow e) then e
  else
    match JSON_clone code with
    | Some serializableCode =>
        set_codeLoaded true (postMessage (update_message serializableCode) e)
    | None => e
    end.

(** [loadRoomState()], the handler of the button. *)
Definition loadRoomState `{Host} (initCode : value) (e : Editor) : Editor :=
  if truthy (lastRoomState e) then loadCode (lastRoomState e) e
  else if truthy initCode then loadCode (or_else (prop "data" initCode) initCode) e
  else e.

(** [x === s] for a string literal [s]. *)
Definition is_string (s : string) (x : value) : bool :=
  match x with
  | VStr t => String.eqb t s
  | _ => false
  end.

Definition is_undefined (x : value) : bool :=
  match x with
  | VUndefined => true
  | _ => false
  end.

(** The object [{ data, origin, timestamp }] given to [onContentChange]. *)
Definition change_record (data : value) (origin : string) (now : Z) : value :=
  VObj [("data", data); ("origin", VStr origin); ("timestamp", VNum now)].

(** The [blocks.updateProject] case of [handleMessage], past the reading of
    [data.type]. *)
Definition handleUpdateProject `{Host} (data : value) (now : Z) (e : Editor)
    : Editor * completion (option value) :=
  if editorReady e && truthy (prop "data" data) then
    match get "element" (prop "event" data) with
    | Throw err => (e, Throw err)
    | Normal element =>
        if abstract_eq element "selected"
           || negb (truthy (prop "recordUndo" (prop "event" data)))
        then (e, Normal None)
        else
          match JSON_parse (prop "data" data) with
          | None => (e, Throw SyntaxError)
          | Some parsed => (e, Normal (Some (change_record parsed (localUserId e) now)))
          end
    end
  else (e, Normal None).

(** [handleMessage(event)], with [data = event.data]; [now] is what
    [Date.now()] returns during the call.  The result is the argument of
    the call of [onContentChange], when there is one. *)
Definition handleMessage `{Host} (data : value) (now : Z) (initCode : value)
    (e : Editor) : Editor * completion (option value) :=
  match get "type" data with
  | Throw err => (e, Throw err)
  | Normal type =>
      if is_string "blocks.ready" type then
        let e1 := set_editorReady true e in
        (if negb (is_undefined initCode) && negb (codeLoaded e1)
         then loadCode initCode e1 else e1,
         Normal None)
      else if is_string "blocks.updateProject" type then
        handleUpdateProject data now e
      else (e, Normal None)
  end.

(** [debounce(fn, delay)]. *)
Definition debounce (fn : callback) (delay : Z) (e : Editor) (T : Timers)
    : Editor * Timers :=
  let T1 :=
    match debounceTimer e with
    | Some id => clearTimeout id T
    | None => T
    end in
  let '(id, T2) := setTimeout (Debounced fn) delay T1 in
  (set_debounceTimer (Some id) e, T2).

(** The body of the [$effect]: one run, which the framework makes when
    [initCode] is assigned. *)
Definition effect `{Host} (initCode : value) (e : Editor) (T : Timers)
    : Editor * Timers :=
  if negb (truthy initCode) || abstract_eq (prop "origin" initCode) (localUserId e)
  then (e, T)
  else debounce ApplyRoomState 10 e T.

(** The closure the effect gives to [debounce]; it reads [initCode] when it
    runs. *)
Definition applyRoomState `{Host} (initCode : value) (e : Editor)
    : Editor * completion unit :=
  match get "data" initCode with
  | Throw err => (e, Throw err)
  | Normal data =>
      if negb (bool_decide (JSON_stringify data = JSON_stringify (lastRoomState e)))
      then (set_lastRoomState data (loadCode data e), Normal tt)
      else (e, Normal tt)
  end.

Definition run_callback `{Host} (fn : callback) (initCode : value) (e : Editor)
    : Editor * completion unit :=
  match fn with
  | ApplyRoomState => applyRoomState initCode e
  end.

(** The timeout [debounce] sets: [fn(); debounceTimer = undefined]. *)
Definition debounced `{Host} (fn : callback) (initCode : value) (e : Editor)
    : Editor * completion unit :=
  match run_callback fn initCode e with
  | (e1, Normal _) => (set_debounceTimer None e1, Normal tt)
  | (e1, Throw err) => (e1, Throw err)
  end.

(** ** The page and its editor together *)

Record System := {
  room : Room;
  editor : Editor;
  timers : Timers
}.

(** What the platform, the framework, the shared-state client and the user
    make happen.  Each event runs one handler to its end.  The store's calls
    of the observers and the framework's runs of the effect are events of
    their own: a handler's result is the state its own statements leave,
    before the store has called an observer for its writes, and one
    assignment of [initCode] may be followed by any number of runs of the
    effect. *)
Inductive event :=
| Mount                                  (* [onMount]: [initRoom()] *)
| FrameBound (available : bool)          (* the frame's window comes or goes *)
| Status (status : string) (now : Z)     (* the provider's [status] event *)
| MouseMove (ev : MouseEvent)            (* [onmousemove] *)
| MouseLeave                             (* [onmouseleave] *)
| MouseObserved                          (* the observer of [mousePositions] *)
| MouseRemote (m : gmap string PresenceEntry) (* an update from the relay *)
| BlockObserved                          (* the observer of [blockContent] *)
| BlockRemote (bc : gmap string value)   (* an update from the relay *)
| Message (data : value) (now : Z)       (* a [message] event of the window *)
| EffectRun                              (* a run of the editor's [$effect] *)
| TimerFired (id : nat)                  (* a pending timeout fires *)
| LoadRoomStateClicked                   (* the [Load Room State] button *)
| Destroy.                               (* [onDestroy]: [cleanup()] *)

(** A pending timeout fires: the platform drops it from its table and runs
    it. *)
Definition fire `{Host} (id : nat) (s : System) : System * completion unit :=
  match find_timer id (timers s) with
  | None => (s, Normal tt)
  | Some t =>
      let T := clearTimeout id (timers s) in
      match timer_task t with
      | Debounced fn =>
          let '(e, c) := debounced fn (editorContent (room s)) (editor s) in
          ({| room := room s; editor := e; timers := T |}, c)
      | ResetSyncStatus =>
          ({| room := resetSyncStatus (room s); editor := editor s; timers := T |},
           Normal tt)
      end
  end.

(** The [message] listener of the editor, with the page's
    [handleEditorContentChange] as [onContentChange]. *)
Definition onMessage `{Host} (data : value) (now : Z) (s : System)
    : System * completion unit :=
  match handleMessage data now (editorContent (room s)) (editor s) with
  | (e, Throw err) => ({| room := room s; editor := e; timers := timers s |}, Throw err)
  | (e, Normal None) => ({| room := room s; editor := e; timers := timers s |}, Normal tt)
  | (e, Normal (Some content)) =>
      let '(r, T) := handleEditorContentChange content now (room s) (timers s) in
      ({| room := r; editor := e; timers := T |}, Normal tt)
  end.

Definition step `{Host} (ev : event) (s : System) : System * completion unit :=
  match ev with
  | Mount =>
      ({| room := initRoom (room s); editor := editor s; timers := timers s |}, Normal tt)
  | FrameBound b =>
      ({| room := room s; editor := set_contentWindow b (editor s); timers := timers s |},
       Normal tt)
  | Status status now =>
      let '(r, c) := onProviderStatus status now (room s) in
      ({| room := r; editor := editor s; timers := timers s |}, c)
  | MouseMove ev =>
      ({| room := set_session (handleMouseMove ev (session (room s))) (room s);
          editor := editor s; timers := timers s |}, Normal tt)
  | MouseLeave =>
      ({| room := set_session (handleMouseLeave (session (room s))) (room s);
          editor := editor s; timers := timers s |}, Normal tt)
  | MouseObserved =>
      ({| room := set_session (observeMousePositions (session (room s))) (room s);
          editor := editor s; timers := timers s |}, Normal tt)
  | MouseRemote m =>
      ({| room := set_session (remoteMousePositions m (session (room s))) (room s);
          editor := editor s; timers := timers s |}, Normal tt)
  | BlockObserved =>
      let '(r, T) := observeBlockContent (room s) (timers s) in
      ({| room := r; editor := editor s; timers := T |}, Normal tt)
  | BlockRemote bc =>
      let '(r, T) := remoteBlockContent bc (room s) (timers s) in
      ({| room := r; editor := editor s; timers := T |}, Normal tt)
  | Message data now => onMessage data now s
  | EffectRun =>
      let '(e, T) := effect (editorContent (room s)) (editor s) (timers s) in
      ({| room := room s; editor := e; timers := T |}, Normal tt)
  | TimerFired id => fire id s
  | LoadRoomStateClicked =>
      ({| room := room s;
          editor := loadRoomState (editorContent (room s)) (editor s);
          timers := timers s |}, Normal tt)
  | Destroy =>
      ({| room := cleanup (room s); editor := editor s; timers := timers s |}, Normal tt)
  end.

(** The state the components are created in. *)
Definition initial (uid color local : string) : System :=
  {| room :=
       {| session :=
            {| users := ∅; myId := ""; connected := false; userId := uid;
               userColor := color; mousePositions := None; provider := None;
               wire := [] |};
          editorContent := VNull;
          lastEditorUpdate := VNum 0;
          syncStatus := Idle;
          blockContent := None |};
     editor :=
       {| editorReady := false; codeLoaded := false; localUserId := local;
          lastRoomState := VNull; debounceTimer := None; contentWindow := false;
          posted := []; loads := [] |};
     timers := {| pending := []; next_id := 1 |} |}.

(** The states a session goes through, whatever the order of the events. *)
Inductive reachable `{Host} : System -> Prop :=
| reachable_initial uid color local : reachable (initial uid color local)
| reachable_step ev s : reachable s -> reachable (fst (step ev s)).

(** A run of events, each from the state the one before left. *)
Definition run `{Host} (evs : list event) (s : System) : System :=
  fold_left (fun s ev => fst (step ev s)) evs s.

(** ** A reference platform

    [JSON.stringify], [JSON.parse] and [==] for the values above, as the
    language standard gives them on JSON texts whose numbers are integers
    in decimal notation and whose strings use the short escapes only.  The
    theorems hold for every [Host]; this one runs the examples. *)

Module Reference.

Local Open Scope char_scope.

Definition decimal (n : Z) : string := NilZero.string_of_int (Z.to_int n).

Definition hex_digit (n : nat) : ascii :=
  match n with
  | 0 => "0" | 1 => "1" | 2 => "2" | 3 => "3" | 4 => "4" | 5 => "5" | 6 => "6"
  | 7 => "7" | 8 => "8" | 9 => "9" | 10 => "a" | 11 => "b" | 12 => "c"
  | 13 => "d" | 14 => "e" | _ => "f"
  end%nat.

Definition dquote : ascii := ascii_of_nat 34.

(** One character of a string, as [JSON.stringify] writes it. *)
Definition escape (c : ascii) : string :=
  let n := nat_of_ascii c in
  if Nat.eqb n 34 then String "\" (String dquote EmptyString)
  else if Nat.eqb n 92 then String "\" (String "\" EmptyString)
  else if Nat.eqb n 8 then String "\" (String "b" EmptyString)
  else if Nat.eqb n 9 then String "\" (String "t" EmptyString)
  else if Nat.eqb n 10 then String "\" (String "n" EmptyString)
  else if Nat.eqb n 12 then String "\" (String "f" EmptyString)
  else if Nat.eqb n 13 then String "\" (String "r" EmptyString)
  else if Nat.ltb n 32 then
    String "\" (String "u" (String "0" (String "0"
      (String (hex_digit (Nat.div n 16)) (String (hex_digit (Nat.modulo n 16)) EmptyString)))))
  else String c EmptyString.

Fixpoint escape_all (s : string) : string :=
  match s with
  | EmptyString => EmptyString
  | String c r => String.append (escape c) (escape_all r)
  end.

Definition quote (s : string) : string :=
  String dquote (String.append (escape_all s) (String dquote EmptyString)).

Definition comma_join (parts : list string) : string :=
  String.concat (String "," EmptyString) parts.

(** [JSON.stringify]: [undefined] has no text, is [null] inside an array
    and is left out of an object. *)
Fixpoint stringify (v : value) : option string :=
  match v with
  | VUndefined => None
  | VNull => Some "null"%string
  | VBool true => Some "true"%string
  | VBool false => Some "false"%string
  | VNum n => Some (decimal n)
  | VStr s => Some (quote s)
  | VArr items =>
      let texts :=
        (fix go (l : list value) : list string :=
           match l with
           | [] => []
           | x :: r => default "null"%string (stringify x) :: go r
           end) items in
      Some (String "[" (String.append (comma_join texts) (String "]" EmptyString)))
  | VObj fields =>
      let texts :=
        (fix go (l : list (string * value)) : list string :=
           match l with
           | [] => []
           | (k, x) :: r =>
               match stringify x with
               | Some t => String.append (quote k) (String ":" t) :: go r
               | None => go r
               end
           end) fields in
      Some (String "{" (String.append (comma_join texts) (String "}" EmptyString)))
  end.

(** [String(v)], the conversion [JSON.parse] applies to its argument. *)
Fixpoint to_text (v : value) : string :=
  match v with
  | VUndefined => "undefined"%string
  | VNull => "null"%string
  | VBool true => "true"%string
  | VBool false => "false"%string
  | VNum n => decimal n
  | VStr s => s
  | VArr items =>
      comma_join
        ((fix go (l : list value) : list string :=
            match l with
            | [] => []
            | VUndefined :: r | VNull :: r => EmptyString :: go r
            | x :: r => to_text x :: go r
            end) items)
  | VObj _ => "[object Object]"%string
  end.

Definition is_ws (c : ascii) : bool :=
  let n := nat_of_ascii c in
  Nat.eqb n 32 || Nat.eqb n 9 || Nat.eqb n 10 || Nat.eqb n 13.

Fixpoint skip_ws (s : string) : string :=
  match s with
  | String c r => if is_ws c then skip_ws r else s
  | EmptyString => s
  end.

Definition digit (c : ascii) : option Z :=
  let n := nat_of_ascii c in
  if Nat.leb 48 n && Nat.leb n 57 then Some (Z.of_nat (n - 48)) else None.

Fixpoint read_digits (acc : Z) (s : string) : Z * string :=
  match s with
  | String c r =>
      match digit c with
      | Some d => read_digits (10 * acc + d) r
      | None => (acc, s)
      end
  | EmptyString => (acc, s)
  end.

Definition starts_fraction (s : string) : bool :=
  match s with
  | String c _ =>
      Ascii.eqb c "." || Ascii.eqb c "e" || Ascii.eqb c "E"
  | EmptyString => false
  end.

(** A JSON integer: [0], or digits that do not start with [0]. *)
Definition read_natural (s : string) : option (Z * string) :=
  match s with
  | String c r =>
      match digit c with
      | Some 0 => if starts_fraction r then None else Some (0, r)
      | Some d =>
          let '(n, rest) := read_digits d r in
          if starts_fraction rest then None else Some (n, rest)
      | None => None
      end
  | EmptyString => None
  end.

Definition read_number (s : string) : option (Z * string) :=
  match s with
  | String "-" r =>
      match read_natural r with
      | Some (n, rest) => Some (- n, rest)
      | None => None
      end
  | _ => read_natural s
  end.

(** The character an escape sequence [\c] stands for. *)
Definition unescape (c : ascii) : option ascii :=
  if Ascii.eqb c dquote then Some dquote
  else if Ascii.eqb c "\" then Some "\"
  else if Ascii.eqb c "/" then Some "/"
  else if Ascii.eqb c "b" then Some (ascii_of_nat 8)
  else if Ascii.eqb c "t" then Some (ascii_of_nat 9)
  else if Ascii.eqb c "n" then Some (ascii_of_nat 10)
  else if Ascii.eqb c "f" then Some (ascii_of_nat 12)
  else if Ascii.eqb c "r" then Some (ascii_of_nat 13)
  else None.

(** The characters of a string literal after its opening quote. *)
Fixpoint read_string (s : string) : option (string * string) :=
  match s with
  | EmptyString => None
  | String c r =>
      if Ascii.eqb c dquote then Some (EmptyString, r)
      else if Ascii.eqb c "\" then
        match r with
        | String c' r' =>
            match unescape c', read_string r' with
            | Some u, Some (t, rest) => Some (String u t, rest)
            | _, _ => None
            end
        | EmptyString => None
        end
      else if Nat.ltb (nat_of_ascii c) 32 then None
      else
        match read_string r with
        | Some (t, rest) => Some (String c t, rest)
        | None => None
        end
  end.

Definition literal (word : string) (v : value) (s : string) : option (value * string) :=
  if String.prefix word s
  then Some (v, String.substring (String.length word) (String.length s - String.length word) s)
  else None.

Definition starts_with (c : ascii) (s : string) : option string :=
  match s with
  | String c' r => if Ascii.eqb c c' then Some r else None
  | EmptyString => None
  end.

Fixpoint parse_value (fuel : nat) (s : string) : option (value * string) :=
  match fuel with
  | O => None
  | S fuel =>
      match skip_ws s with
      | String "n" _ as t => literal "null" VNull t
      | String "t" _ as t => literal "true" (VBool true) t
      | String "f" _ as t => literal "false" (VBool false) t
      | String "[" r =>
          match skip_ws r with
          | String "]" rest => Some (VArr [], rest)
          | _ => parse_items fuel [] r
          end
      | String "{" r =>
          match skip_ws r with
          | String "}" rest => Some (VObj [], rest)
          | _ => parse_members fuel [] r
          end
      | t =>
          match starts_with dquote t with
          | Some r =>
              match read_string r with
              | Some (text, rest) => Some (VStr text, rest)
              | None => None
              end
          | None =>
              match read_number t with
              | Some (n, rest) => Some (VNum n, rest)
              | None => None
              end
          end
      end
  end
with parse_items (fuel : nat) (acc : list value) (s : string) : option (value * string) :=
  match fuel with
  | O => None
  | S fuel =>
      match parse_value fuel s with
      | Some (v, r) =>
          match skip_ws r with
          | String "," rest => parse_items fuel (acc ++ [v]) rest
          | String "]" rest => Some (VArr (acc ++ [v]), rest)
          | _ => None
          end
      | None => None
      end
  end
with parse_members (fuel : nat) (acc : list (string * value)) (s : string)
    : option (value * string) :=
  match fuel with
  | O => None
  | S fuel =>
      match starts_with dquote (skip_ws s) with
      | Some r =>
          match read_string r with
          | Some (k, r1) =>
              match skip_ws r1 with
              | String ":" r2 =>
                  match parse_value fuel r2 with
                  | Some (v, r3) =>
                      match skip_ws r3 with
                      | String "," rest => parse_members fuel (acc ++ [(k, v)]) rest
                      | String "}" rest => Some (VObj (acc ++ [(k, v)]), rest)
                      | _ => None
                      end
                  | None => None
                  end
              | _ => None
              end
          | None => None
          end
      | None => None
      end
  end.

(** [JSON.parse] of a text: one value and nothing after it. *)
Definition parse_text (s : string) : option value :=
  match parse_value (2 * String.length s + 2) s with
  | Some (v, rest) =>
      match skip_ws rest with
      | EmptyString => Some v
      | _ => None
      end
  | None => None
  end.

Definition parse (v : value) : option value := parse_text (to_text v).

(** [v == s] for [v] a number, a boolean, an array or an object: numbers
    and booleans against the number [s] denotes, arrays and objects by
    their text. *)
Definition coerced (v : value) (s : string) : bool :=
  match v with
  | VNum n =>
      match read_number (skip_ws s) with
      | Some (m, rest) => Z.eqb n m && String.eqb (skip_ws rest) EmptyString
      | None => Z.eqb n 0 && String.eqb (skip_ws s) EmptyString
      end
  | VBool b =>
      let n := if b then 1 else 0 in
      match read_number (skip_ws s) with
      | Some (m, rest) => Z.eqb n m && String.eqb (skip_ws rest) EmptyString
      | None => Z.eqb n 0 && String.eqb (skip_ws s) EmptyString
      end
  | VArr _ | VObj _ => String.eqb (to_text v) s
  | _ => false
  end.

Definition host : Host :=
  {| JSON_stringify := stringify; JSON_parse := parse; coerced_eq := coerced |}.

End Reference.

(** A burst of assignments to [initCode]: the effect runs once for each
    record, oldest first, and no timeout fires in between. *)
Definition effects `{Host} (recs : list value) (e : Editor) (T : Timers)
    : Editor * Timers :=
  fold_left (fun st rec => effect rec (fst st) (snd st)) recs (e, T).

(** A record another participant wrote: it is there and its origin is not
    the editor's own identifier. *)
Definition remote `{Host} (e : Editor) (rec : value) : Prop :=
  truthy rec = true /\ abstract_eq (prop "origin" rec) (localUserId e) = false.

(** What the deferred apply posts for [data]: the message with the clone,
    when the frame is ready and the clone succeeds. *)
Definition delivery `{Host} (data : value) (e : Editor) : list value :=
  if negb (editorReady e) || negb (contentWindow e) then []
  else
    match JSON_clone data with
    | Some c => [update_message c]
    | None => []
    end.

(** Every pending deferred apply is the one [debounceTimer] names. *)
Definition tracked (e : Editor) (T : Timers) : Prop :=
  forall t, In t (pending T) -> is_debounced t = true ->
            debounceTimer e = Some (timer_id t).

(** The timer table as the platform keeps it (identifiers distinct and
    below the next one to hand out) and as the editor tracks it. *)
Definition timers_ok (e : Editor) (T : Timers) : Prop :=
  NoDup (map timer_id (pending T))
  /\ (forall t, In t (pending T) -> (timer_id t < next_id T)%nat)
  /\ tracked e T.

(** The timeout [debounce] creates in the table [T]. *)
Definition new_apply (fn : callback) (delay : Z) (T : Timers) : timer :=
  {| timer_id := next_id T; timer_task := Debounced fn; timer_delay := delay |}.

(** What is pending once the timeout [debounceTimer] names is cleared. *)
Definition cleared (e : Editor) (T : Timers) : Timers :=
  match debounceTimer e with
  | Some id => clearTimeout id T
  | None => T
  end.

(** ** The debug panel *)

(** One line of the panel: [`${clock} ${message}`], where [clock] is the
    text [new Date().toISOString().substring(11, 19)]. *)
Definition debug_line (clock message : string) : string :=
  String.append clock (String " "%char message).

(** [debug(message)] of the editor and of the room page, on their
    [debugMessages]: [[...debugMessages.slice(-19), line]]. *)
Definition debug (clock message : string) (debugMessages : list string)
    : list string :=
  skipn (length debugMessages - 19) debugMessages ++ [debug_line clock message].

(** Calls of [debug], oldest first, each with the clock's text and the
    message. *)
Definition debugs (calls : list (string * string)) (debugMessages : list string)
    : list string :=
  fold_left (fun log c => debug (fst c) (snd c) log) calls debugMessages.

(** ** Runs of the handlers *)

(** Messages the window delivers to the editor one after the other, each
    with the clock's reading, while [initCode] stays the same. *)
Definition handleMessages `{Host} (msgs : list (value * Z)) (initCode : value)
    (e : Editor) : Editor :=
  fold_left (fun e m => fst (handleMessage (fst m) (snd m) initCode e)) msgs e.




(** The entry of participant [id] in the presence map the session holds. *)
Definition entry (id : string) (s : Session) : option PresenceEntry :=
  match mousePositions s with
  | Some m => m !! id
  | None => None
  end.

(** [editorContent] is the initial [null], with no deferred apply pending,
    or a record the page has built. *)
Definition content_ok (s : System) : Prop :=
  (editorContent (room s) = VNull /\ pending_applies (timers s) = [])
  \/ exists d t o, editorContent (room s) = content_record d t o.

(** [debounceTimer] names the pending deferred apply, and is [undefined]
    when there is none. *)
Definition synced (e : Editor) (T : Timers) : Prop :=
  match debounceTimer e with
  | Some id =>
      pending_applies T
      = [{| timer_id := id; timer_task := Debounced ApplyRoomState; timer_delay := 10 |}]
  | None => pending_applies T = []
  end.

(** The content a handler leaves: what was there, or a record. *)
Definition content_kept (before after : value) : Prop :=
  after = before \/ exists d t o, after = content_record d t o.

(** A message of the kind the bridge sends to the frame. *)
Definition is_update (m : value) : Prop := exists c, m = update_message c.

(** The bridge's bookkeeping agrees with what it has done: [codeLoaded] is
    set exactly when something has been posted, only a frame that has
    reported ready has been posted to, every posted message is an update,
    every post comes from a call of [loadCode], and [lastRoomState] is the
    initial [null] or a value [loadCode] was called with. *)
Definition bridge_ok (e : Editor) : Prop :=
  (codeLoaded e = true <-> posted e <> [])
  /\ (codeLoaded e = true -> editorReady e = true)
  /\ Forall is_update (posted e)
  /\ (length (posted e) <= length (loads e))%nat
  /\ (lastRoomState e = VNull \/ In (lastRoomState e) (loads e)).


(** ** States and inputs for the examples *)

Definition ex_session : Session :=
  {| users := ∅; myId := "4821"; connected := true; userId := "4821";
     userColor := "#3fa9c1"; mousePositions := Some ∅; provider := Some true;
     wire := [] |}.

Definition ex_move1 : MouseEvent :=
  {| clientX := PrimFloat.two; clientY := PrimFloat.one;
     bounds_left := PrimFloat.one; bounds_top := PrimFloat.zero |}.

Definition ex_move2 : MouseEvent :=
  {| clientX := PrimFloat.two; clientY := PrimFloat.two;
     bounds_left := PrimFloat.zero; bounds_top := PrimFloat.one |}.

(** A room whose provider has not reported [connected] yet. *)
Definition ex_room_offline : Room :=
  {| session :=
       {| users := ∅; myId := "4821"; connected := false; userId := "4821";
          userColor := "#3fa9c1"; mousePositions := Some ∅; provider := Some true;
          wire := [] |};
     editorContent := VNull; lastEditorUpdate := VNum 0; syncStatus := Idle;
     blockContent := Some ∅ |}.

Definition ex_timers : Timers := {| pending := []; next_id := 1 |}.

(** The content map after a peer ["k3x9qa"] has published ["X"]. *)
Definition ex_remote_X : gmap string value :=
  <["origin" := VStr "k3x9qa"]>
    (<["timestamp" := VNum 1700000000000]> (<["content" := VStr "X"]> ∅)).

Definition ex_remote_Y : gmap string value :=
  <["origin" := VStr "k3x9qa"]>
    (<["timestamp" := VNum 1700000000500]> (<["content" := VStr "Y"]> ∅)).

(** The editor frame's messages. *)
Definition ready_message : value := VObj [("type", VStr "blocks.ready")].

Definition change_message (payload element recordUndo : value) : value :=
  VObj [("type", VStr "blocks.updateProject"); ("data", payload);
        ("event", VObj [("element", element); ("recordUndo", recordUndo)])].

(** A session that mounts, connects, hears the editor frame, and sees two
    remote updates arrive within one debounce window. *)
Definition ex_events : list event :=
  [Mount; FrameBound true; Status "connected" 1700000000100;
   Message ready_message 1700000000200;
   BlockRemote ex_remote_X; EffectRun; BlockRemote ex_remote_Y; EffectRun].

Definition ex_system : System :=
  @run Reference.host ex_events (initial "4821" "#3fa9c1" "ab12cd").

(** The session once the editor frame has reported ready and the provider
    is connected. *)
Definition ex_ready : System :=
  @run Reference.host
    [Mount; FrameBound true; Status "connected" 1700000000100;
     Message ready_message 1700000000200]
    (initial "4821" "#3fa9c1" "ab12cd").

(** Records as the page hands them to the editor. *)
Definition ex_record_X : value :=
  content_record (VStr "X") (VNum 1700000000000) (VStr "k3x9qa").

Definition ex_record_Y : value :=
  content_record (VStr "Y") (VNum 1700000000500) (VStr "k3x9qa").

(** The record the editor's own change comes back as. *)
Definition ex_record_own : value :=
  content_record (VStr "X") (VNum 1700000000000) (VStr "ab12cd").

(** A session in which a peer's content reaches the replica, and the editor
    sees it, before the provider reports [connected]. *)
Definition ex_before_connect : System :=
  @run Reference.host
    [Mount; FrameBound true; Message ready_message 1700000000200;
     BlockRemote ex_remote_X; EffectRun]
    (initial "4821" "#3fa9c1" "ab12cd").

(** The same session once its deferred apply has fired. *)
Definition ex_applied : System :=
  @run Reference.host (ex_events ++ [TimerFired 4])
    (initial "4821" "#3fa9c1" "ab12cd").

(** * Properties *)

(** ** Setters and the fields they leave alone *)

Lemma handleMouseMove_frame ev s :
  connected (handleMouseMove ev s) = connected s
  /\ userId (handleMouseMove ev s) = userId s
  /\ userColor (handleMouseMove ev s) = userColor s
  /\ provider (handleMouseMove ev s) = provider s
  /\ (is_Some (mousePositions s) -> is_Some (mousePositions (handleMouseMove ev s))).
Proof.
  unfold handleMouseMove.
  destruct (mousePositions s) as [m|] eqn:Hm; [|by rewrite Hm].
  destruct (connected s) eqn:Hc; cbn; rewrite ?Hc, ?Hm; eauto 10.
Qed.

Lemma handleMouseMove_connected ev s m :
  connected s = true -> mousePositions s = Some m ->
  mousePositions (handleMouseMove ev s)
  = Some (<[userId s := position (userColor s) ev]> m).
Proof. intros Hc Hm. unfold handleMouseMove. by rewrite Hm, Hc. Qed.

Lemma pointerMoves_frame evs : forall s,
  connected (pointerMoves evs s) = connected s
  /\ userId (pointerMoves evs s) = userId s
  /\ userColor (pointerMoves evs s) = userColor s
  /\ (is_Some (mousePositions s) -> is_Some (mousePositions (pointerMoves evs s))).
Proof.
  induction evs as [|ev evs IH]; intros s; [by cbn|].
  change (pointerMoves (ev :: evs) s) with (pointerMoves evs (handleMouseMove ev s)).
  destruct (IH (handleMouseMove ev s)) as (-> & -> & -> & Hh).
  destruct (handleMouseMove_frame ev s) as (-> & -> & -> & _ & Hm).
  repeat split; auto.
Qed.

Lemma pointerMoves_snoc evs ev s :
  pointerMoves (evs ++ [ev]) s = handleMouseMove ev (pointerMoves evs s).
Proof. unfold pointerMoves. by rewrite fold_left_app. Qed.

(** C6. While the session is connected and holds the map, after any
    sequence of pointer moves the entry of the local participant in the
    shared map is the position of the last move, the pointer's coordinates
    less the left and top of the tracking area, with the session's color;
    and after [handleMouseLeave] the map has no entry for the participant. *)
Theorem presence_follows_pointer (s : Session) (m : gmap string PresenceEntry)
    (evs : list MouseEvent) (ev : MouseEvent) :
  connected s = true ->
  mousePositions s = Some m ->
  let s' := pointerMoves (evs ++ [ev]) s in
  (exists m' : gmap string PresenceEntry,
      mousePositions s' = Some m'
      /\ m' !! userId s
         = Some {| entry_x := PrimFloat.sub (clientX ev) (bounds_left ev);
                   entry_y := PrimFloat.sub (clientY ev) (bounds_top ev);
                   entry_color := userColor s |})
  /\ (exists m' : gmap string PresenceEntry,
      mousePositions (handleMouseLeave s') = Some m'
      /\ m' !! userId s = None).
Proof.
  intros Hc Hm s'. subst s'. rewrite pointerMoves_snoc.
  destruct (pointerMoves_frame evs s) as (Hc' & Hu & Hcol & Hsome).
  destruct (Hsome (mk_is_Some _ _ Hm)) as [m1 Hm1].
  rewrite Hc in Hc'.
  pose proof (handleMouseMove_connected ev _ _ Hc' Hm1) as Hmove.
  rewrite Hu, Hcol in Hmove.
  split.
  - eexists. split; [exact Hmove|]. by rewrite lookup_insert_eq.
  - destruct (handleMouseMove_frame ev (pointerMoves evs s)) as (Hc2 & Hu2 & _).
    unfold handleMouseLeave. rewrite Hmove, Hc2, Hc'. cbn.
    eexists. split; [reflexivity|]. rewrite Hu2, Hu. by rewrite lookup_delete_eq.
Qed.

Lemma presence_follows_pointer_witness :
  (exists m' : gmap string PresenceEntry,
      mousePositions (pointerMoves [ex_move1; ex_move2] ex_session) = Some m'
      /\ m' !! "4821"
         = Some {| entry_x := PrimFloat.two; entry_y := PrimFloat.one;
                   entry_color := "#3fa9c1" |})
  /\ (exists m' : gmap string PresenceEntry,
      mousePositions (handleMouseLeave (pointerMoves [ex_move1; ex_move2] ex_session))
      = Some m'
      /\ m' !! "4821" = None).
Proof.
  exact (presence_follows_pointer ex_session ∅ [ex_move1] ex_move2 eq_refl eq_refl).
Defined.

(** C9. Teardown makes its calls to the shared-state client in this order:
    the removal of the local presence entry first, when the session is
    connected and holds the map, then the release of the connection; no
    removal follows a release.  The pointer page's [onDestroy] and the
    editor page's [cleanup] are the same two statements. *)
Theorem presence_removed_before_release (r : Room) :
  session (cleanup r) = onDestroy (session r)
  /\ exists calls : list Call,
      wire (onDestroy (session r)) = wire (session r) ++ calls
      /\ (connected (session r) = true -> is_Some (mousePositions (session r)) ->
          exists rest, calls = MouseDelete (userId (session r)) :: rest)
      /\ (is_Some (provider (session r)) -> In ProviderDisconnect calls)
      /\ (forall pre post id,
            calls = pre ++ ProviderDisconnect :: post -> ~ In (MouseDelete id) post).
Proof.
  split; [reflexivity|].
  set (s := session r). unfold onDestroy.
  destruct (mousePositions s) as [m|] eqn:Hm;
    [destruct (connected s) eqn:Hc|]; cbn;
    destruct (provider s) as [b|] eqn:Hp; cbn;
    [ exists [MouseDelete (userId s); ProviderDisconnect]
    | exists [MouseDelete (userId s)]
    | exists [ProviderDisconnect]
    | exists []
    | exists [ProviderDisconnect]
    | exists [] ];
    (split; [by rewrite <- ?app_assoc, ?app_nil_r|]);
    (split; [first [by eauto | by intros ? [? ?] | discriminate]|]);
    (split; [first [by intros [? ?] | by cbn; eauto]|]);
    intros pre post id Heq;
    destruct pre as [|c1 [|c2 [|c3 pre]]]; cbn in Heq; simplify_eq;
    cbn; tauto.
Qed.

(** C10. When the session is not connected, or the content map is not
    there, [handleEditorContentChange] changes nothing: the room (its
    content map, [lastEditorUpdate], [syncStatus] and the history of calls)
    and the timers are what they were. *)
Theorem offline_change_is_noop (content : value) (now : Z) (r : Room) (T : Timers) :
  connected (session r) = false \/ blockContent r = None ->
  handleEditorContentChange content now r T = (r, T).
Proof.
  intros [Hc | Hb]; unfold handleEditorContentChange.
  - rewrite Hc. by destruct (blockContent r).
  - by rewrite Hb.
Qed.

(** ** The timer table *)

Lemma In_clearTimeout t id T :
  In t (pending (clearTimeout id T)) <-> In t (pending T) /\ timer_id t <> id.
Proof.
  unfold clearTimeout; cbn. rewrite filter_In, negb_true_iff, Nat.eqb_neq. tauto.
Qed.

Lemma In_setTimeout t k d T :
  In t (pending (snd (setTimeout k d T)))
  <-> In t (pending T)
      \/ t = {| timer_id := next_id T; timer_task := k; timer_delay := d |}.
Proof.
  unfold setTimeout; cbn. rewrite in_app_iff; cbn. intuition congruence.
Qed.

Lemma NoDup_map_filter {A B} (f : A -> B) (p : A -> bool) (l : list A) :
  NoDup (map f l) -> NoDup (map f (List.filter p l)).
Proof.
  induction l as [|x l IH]; cbn; [trivial|].
  intros Hnd. apply NoDup_cons in Hnd as [Hx Hl].
  destruct (p x); cbn; [|by apply IH].
  apply NoDup_cons. split; [|by apply IH].
  rewrite list_elem_of_In in *. intros Hin. apply Hx.
  apply in_map_iff in Hin as (y & <- & Hy).
  apply filter_In in Hy as [Hy _]. by apply in_map.
Qed.

Lemma filter_none {A} (p : A -> bool) (l : list A) :
  (forall x, In x l -> p x = false) -> List.filter p l = [].
Proof.
  induction l as [|x l IH]; cbn; [trivial|]. intros Hall.
  rewrite (Hall x) by auto. apply IH. auto.
Qed.

Lemma filter_same_id {A} (f : A -> nat) (p : A -> bool) (d : nat) (l : list A) :
  NoDup (map f l) ->
  (forall x, In x l -> p x = true -> f x = d) ->
  (length (List.filter p l) <= 1)%nat.
Proof.
  induction l as [|x l IH]; cbn; [lia|].
  intros Hnd Hall. apply NoDup_cons in Hnd as [Hx Hl].
  destruct (p x) eqn:Hpx; [|apply IH; auto].
  rewrite (filter_none p l); [cbn; lia|].
  intros y Hy. destruct (p y) eqn:Hpy; [|trivial].
  exfalso. apply Hx. rewrite list_elem_of_In. apply in_map_iff.
  exists y. split; [|trivial].
  rewrite (Hall y), (Hall x); auto.
Qed.

Lemma timers_ok_at_most_one e T :
  timers_ok e T -> (length (pending_applies T) <= 1)%nat.
Proof.
  intros (Hnd & _ & Htr). unfold pending_applies.
  destruct (debounceTimer e) as [d|] eqn:Hd.
  - apply (filter_same_id timer_id is_debounced d); [trivial|].
    intros t Ht Hdeb. specialize (Htr t Ht Hdeb). congruence.
  - rewrite filter_none; [cbn; lia|].
    intros t Ht. destruct (is_debounced t) eqn:Hdeb; [|trivial].
    specialize (Htr t Ht Hdeb). congruence.
Qed.

Lemma timers_ok_editor e e' T :
  debounceTimer e' = debounceTimer e -> timers_ok e T -> timers_ok e' T.
Proof.
  intros Heq (Hnd & Hlt & Htr). repeat split; trivial.
  intros t Ht Hdeb. rewrite Heq. by apply Htr.
Qed.

Lemma timers_ok_clearTimeout e id T :
  timers_ok e T -> timers_ok e (clearTimeout id T).
Proof.
  intros (Hnd & Hlt & Htr). repeat split.
  - by apply NoDup_map_filter.
  - intros t Ht. apply In_clearTimeout in Ht as [Ht _]. by apply Hlt.
  - intros t Ht Hdeb. apply In_clearTimeout in Ht as [Ht _]. by apply Htr.
Qed.

Lemma NoDup_setTimeout k d T :
  NoDup (map timer_id (pending T)) ->
  (forall t, In t (pending T) -> (timer_id t < next_id T)%nat) ->
  NoDup (map timer_id (pending (snd (setTimeout k d T)))).
Proof.
  intros Hnd Hlt. unfold setTimeout; cbn. rewrite map_app; cbn.
  apply NoDup_app. repeat split; [trivial| |apply NoDup_singleton].
  intros i Hi Hi'. apply list_elem_of_In in Hi, Hi'.
  destruct Hi' as [<-|[]]. apply in_map_iff in Hi as (t & Heq & Ht).
  specialize (Hlt t Ht). lia.
Qed.

Lemma setTimeout_bound k d T :
  (forall t, In t (pending T) -> (timer_id t < next_id T)%nat) ->
  forall t, In t (pending (snd (setTimeout k d T))) ->
            (timer_id t < next_id (snd (setTimeout k d T)))%nat.
Proof.
  intros Hlt t Ht. apply In_setTimeout in Ht as [Ht | ->]; cbn.
  - specialize (Hlt t Ht). lia.
  - lia.
Qed.

Lemma timers_ok_reset e d T :
  timers_ok e T -> timers_ok e (snd (setTimeout ResetSyncStatus d T)).
Proof.
  intros (Hnd & Hlt & Htr). repeat split.
  - by apply NoDup_setTimeout.
  - by apply setTimeout_bound.
  - intros t Ht Hdeb. apply In_setTimeout in Ht as [Ht | ->]; [by apply Htr|].
    discriminate.
Qed.

Lemma cleared_no_apply e T :
  tracked e T -> pending_applies (cleared e T) = [].
Proof.
  intros Htr. unfold pending_applies, cleared. apply filter_none.
  intros t Ht. destruct (is_debounced t) eqn:Hdeb; [|trivial]. exfalso.
  destruct (debounceTimer e) as [d|] eqn:Hd.
  - apply In_clearTimeout in Ht as [Ht Hne].
    specialize (Htr t Ht Hdeb). congruence.
  - specialize (Htr t Ht Hdeb). congruence.
Qed.

Lemma debounce_unfold fn d e T :
  debounce fn d e T
  = (set_debounceTimer (Some (next_id T)) e,
     snd (setTimeout (Debounced fn) d (cleared e T))).
Proof.
  unfold debounce, cleared, setTimeout. by destruct (debounceTimer e).
Qed.

Lemma pending_applies_debounce fn d e T :
  tracked e T ->
  pending_applies (snd (debounce fn d e T)) = [new_apply fn d T].
Proof.
  intros Htr. rewrite debounce_unfold. cbn.
  unfold pending_applies; cbn. rewrite List.filter_app.
  fold (pending_applies (cleared e T)). rewrite (cleared_no_apply _ _ Htr). cbn.
  unfold new_apply, cleared. by destruct (debounceTimer e).
Qed.

Lemma timers_ok_debounce fn d e T :
  timers_ok e T ->
  timers_ok (fst (debounce fn d e T)) (snd (debounce fn d e T)).
Proof.
  intros Hok. rewrite debounce_unfold. cbn [fst snd].
  assert (Hc : timers_ok e (cleared e T)).
  { unfold cleared. destruct (debounceTimer e); [by apply timers_ok_clearTimeout|trivial]. }
  pose proof (cleared_no_apply e T (proj2 (proj2 Hok))) as Hnone.
  destruct Hc as (Hnd & Hlt & Htr).
  assert (Hnext : next_id (cleared e T) = next_id T).
  { unfold cleared. by destruct (debounceTimer e). }
  repeat split.
  - by apply NoDup_setTimeout.
  - by apply setTimeout_bound.
  - intros t Ht Hdeb. apply In_setTimeout in Ht as [Ht | ->].
    + exfalso. assert (Hin : In t (pending_applies (cleared e T))).
      { unfold pending_applies. apply filter_In. auto. }
      rewrite Hnone in Hin. destruct Hin.
    + cbn. by rewrite Hnext.
Qed.

(** ** The handlers and the timer the editor tracks *)

Lemma loadCode_debounceTimer `{Host} code e :
  debounceTimer (loadCode code e) = debounceTimer e.
Proof.
  unfold loadCode. cbn.
  destruct (negb (editorReady e) || negb (contentWindow e)); [reflexivity|].
  by destruct (JSON_clone code).
Qed.

Lemma loadRoomState_debounceTimer `{Host} initCode e :
  debounceTimer (loadRoomState initCode e) = debounceTimer e.
Proof.
  unfold loadRoomState.
  destruct (truthy (lastRoomState e)); [apply loadCode_debounceTimer|].
  destruct (truthy initCode); [apply loadCode_debounceTimer|reflexivity].
Qed.

Lemma handleUpdateProject_editor `{Host} data now e :
  fst (handleUpdateProject data now e) = e.
Proof.
  unfold handleUpdateProject.
  destruct (editorReady e && truthy (prop "data" data)); [|reflexivity].
  destruct (get "element" (prop "event" data)); [|reflexivity].
  destruct (abstract_eq a "selected" || _); [reflexivity|].
  by destruct (JSON_parse (prop "data" data)).
Qed.

Lemma handleMessage_debounceTimer `{Host} data now initCode e :
  debounceTimer (fst (handleMessage data now initCode e)) = debounceTimer e.
Proof.
  unfold handleMessage.
  destruct (get "type" data) as [type|]; [|reflexivity].
  destruct (is_string "blocks.ready" type).
  - cbn. destruct (negb (is_undefined initCode) && _); [|reflexivity].
    by rewrite loadCode_debounceTimer.
  - destruct (is_string "blocks.updateProject" type); [|reflexivity].
    by rewrite handleUpdateProject_editor.
Qed.

Lemma handleEditorContentChange_timers content now r T :
  snd (handleEditorContentChange content now r T) = T
  \/ snd (handleEditorContentChange content now r T)
     = snd (setTimeout ResetSyncStatus 500 T).
Proof.
  unfold handleEditorContentChange.
  destruct (blockContent r); [|by left].
  destruct (negb (connected (session r))); [by left|].
  destruct (negb (truthy content) || _); [by left|by right].
Qed.

Lemma observeBlockContent_timers r T :
  snd (observeBlockContent r T) = T
  \/ snd (observeBlockContent r T) = snd (setTimeout ResetSyncStatus 500 T).
Proof.
  unfold observeBlockContent.
  destruct (blockContent r) as [bc|]; [|by left].
  destruct (truthy (block_get "content" bc)); [by right|by left].
Qed.

Lemma remoteBlockContent_timers bc r T :
  snd (remoteBlockContent bc r T) = T
  \/ snd (remoteBlockContent bc r T) = snd (setTimeout ResetSyncStatus 500 T).
Proof.
  unfold remoteBlockContent.
  destruct (blockContent r); [apply observeBlockContent_timers|by left].
Qed.

Lemma timers_ok_maybe_reset e T T' :
  timers_ok e T ->
  T' = T \/ T' = snd (setTimeout ResetSyncStatus 500 T) ->
  timers_ok e T'.
Proof. intros Hok [-> | ->]; [trivial|by apply timers_ok_reset]. Qed.

Lemma find_timer_Some id T t :
  find_timer id T = Some t -> In t (pending T) /\ timer_id t = id.
Proof.
  unfold find_timer. intros Hf. apply find_some in Hf as [Hin Heq].
  split; [trivial|by apply Nat.eqb_eq].
Qed.

Lemma timers_ok_fire `{Host} id s :
  timers_ok (editor s) (timers s) ->
  timers_ok (editor (fst (fire id s))) (timers (fst (fire id s))).
Proof.
  intros Hok. unfold fire.
  destruct (find_timer id (timers s)) as [t|] eqn:Hf; [|trivial].
  apply find_timer_Some in Hf as [Hin Hid].
  pose proof (timers_ok_clearTimeout _ id _ Hok) as Hclear.
  destruct (timer_task t) as [fn|] eqn:Htask; [|trivial].
  assert (Hdeb : is_debounced t = true) by (unfold is_debounced; by rewrite Htask).
  assert (Hnone : forall t', In t' (pending (clearTimeout id (timers s))) ->
                             is_debounced t' = true -> False).
  { intros t' Ht' Hdeb'. apply In_clearTimeout in Ht' as [Ht' Hne].
    destruct Hok as (_ & _ & Htr).
    pose proof (Htr t Hin Hdeb). pose proof (Htr t' Ht' Hdeb'). congruence. }
  unfold debounced, run_callback. destruct fn.
  destruct (applyRoomState (editorContent (room s)) (editor s)) as [e1 [[]|err]] eqn:Happ;
    cbn; destruct Hclear as (Hnd & Hlt & _); repeat split; trivial;
    intros t' Ht' Hdeb'; destruct (Hnone t' Ht' Hdeb').
Qed.

Lemma timers_ok_step `{Host} ev s :
  timers_ok (editor s) (timers s) ->
  timers_ok (editor (fst (step ev s))) (timers (fst (step ev s))).
Proof.
  intros Hok. destruct ev; cbn; trivial.
  - destruct (onProviderStatus status now (room s)); trivial.
  - pose proof (observeBlockContent_timers (room s) (timers s)) as HT.
    destruct (observeBlockContent (room s) (timers s)); cbn in *.
    by apply (timers_ok_maybe_reset _ (timers s)).
  - pose proof (remoteBlockContent_timers bc (room s) (timers s)) as HT.
    destruct (remoteBlockContent bc (room s) (timers s)); cbn in *.
    by apply (timers_ok_maybe_reset _ (timers s)).
  - unfold onMessage.
    pose proof (handleMessage_debounceTimer data now (editorContent (room s)) (editor s)) as He.
    destruct (handleMessage data now (editorContent (room s)) (editor s))
      as [e [[content|]|err]]; cbn in *;
      try (by apply (timers_ok_editor (editor s))).
    pose proof (handleEditorContentChange_timers content now (room s) (timers s)) as HT.
    destruct (handleEditorContentChange content now (room s) (timers s)); cbn in *.
    apply (timers_ok_maybe_reset _ (timers s)); [|exact HT].
    by apply (timers_ok_editor (editor s)).
  - unfold effect.
    destruct (negb (truthy (editorContent (room s))) || _); [trivial|].
    pose proof (timers_ok_debounce ApplyRoomState 10 _ _ Hok) as Hd.
    by destruct (debounce ApplyRoomState 10 (editor s) (timers s)).
  - by apply timers_ok_fire.
  - eapply timers_ok_editor; [|eauto]. apply loadRoomState_debounceTimer.
Qed.

Lemma timers_ok_initial uid color local :
  timers_ok (editor (initial uid color local)) (timers (initial uid color local)).
Proof.
  repeat split; cbn; [apply NoDup_nil; trivial|tauto|]. intros t [].
Qed.

Lemma reachable_timers_ok `{Host} s :
  reachable s -> timers_ok (editor s) (timers s).
Proof.
  induction 1 as [uid color local|ev s _ IH];
    [apply timers_ok_initial|by apply timers_ok_step].
Qed.

Lemma reachable_run `{Host} evs : forall s, reachable s -> reachable (run evs s).
Proof.
  induction evs as [|ev evs IH]; intros s Hs; [exact Hs|].
  apply (IH (fst (step ev s))). by apply reachable_step.
Qed.

(** C7. In every state of a session at most one deferred apply is pending;
    and whenever [debounce] is called, what is pending afterwards is the
    timeout it has just created and no other: the earlier one is cleared
    before the new one is set. *)
Theorem at_most_one_deferred_apply `{Host} (s : System) :
  reachable s ->
  (length (pending_applies (timers s)) <= 1)%nat
  /\ forall fn delay,
      pending_applies (snd (debounce fn delay (editor s) (timers s)))
      = [new_apply fn delay (timers s)].
Proof.
  intros Hr. apply reachable_timers_ok in Hr. split.
  - by eapply timers_ok_at_most_one.
  - intros fn delay. apply pending_applies_debounce. apply Hr.
Qed.

Lemma at_most_one_deferred_apply_witness :
  (length (pending_applies (timers ex_system)) <= 1)%nat
  /\ forall fn delay,
      pending_applies (snd (debounce fn delay (editor ex_system) (timers ex_system)))
      = [new_apply fn delay (timers ex_system)].
Proof.
  exact (@at_most_one_deferred_apply Reference.host ex_system
           (@reachable_run Reference.host ex_events _
              (@reachable_initial Reference.host "4821" "#3fa9c1" "ab12cd"))).
Defined.

Lemma offline_change_is_noop_witness :
  handleEditorContentChange (change_record (VStr "X") "ab12cd" 1700000000000)
    1700000000000 ex_room_offline ex_timers
  = (ex_room_offline, ex_timers).
Proof.
  exact (offline_change_is_noop _ 1700000000000 ex_room_offline ex_timers
           (or_introl eq_refl)).
Defined.

(** ** Local changes: from the editor frame to the shared map *)

Lemma or_else_same v : or_else v v = v.
Proof. unfold or_else. by destruct (truthy v). Qed.

Lemma or_else_string id : or_else (VStr id) (VStr "") = VStr id.
Proof.
  unfold or_else; cbn. destruct (String.eqb_spec id ""); cbn; congruence.
Qed.

Lemma pending_applies_reset d T :
  pending_applies (snd (setTimeout ResetSyncStatus d T)) = pending_applies T.
Proof.
  unfold pending_applies, setTimeout; cbn. rewrite List.filter_app; cbn.
  apply app_nil_r.
Qed.

Lemma handleMessage_change `{Host} data now initCode e element parsed :
  get "type" data = Normal (VStr "blocks.updateProject") ->
  editorReady e = true ->
  truthy (prop "data" data) = true ->
  get "element" (prop "event" data) = Normal element ->
  abstract_eq element "selected" = false ->
  truthy (prop "recordUndo" (prop "event" data)) = true ->
  JSON_parse (prop "data" data) = Some parsed ->
  handleMessage data now initCode e
  = (e, Normal (Some (change_record parsed (localUserId e) now))).
Proof.
  intros Hty Hready Hdata Hev Hsel Hundo Hparse.
  unfold handleMessage. rewrite Hty. cbn.
  unfold handleUpdateProject. rewrite Hready, Hdata, Hev, Hsel, Hundo, Hparse.
  reflexivity.
Qed.

(** C3. A change the editor frame reports, with a payload that parses, not
    a selection, recorded for undo, is written by the same call of the
    message listener that receives it: the three keys of the shared map get
    the parsed payload, the clock's reading and the editor's [localUserId],
    by three consecutive calls; no deferred apply is created on the way. *)
Theorem local_change_published `{Host} (s : System) (data : value) (now : Z)
    (element parsed : value) (bc : gmap string value) :
  get "type" data = Normal (VStr "blocks.updateProject") ->
  editorReady (editor s) = true ->
  truthy (prop "data" data) = true ->
  get "element" (prop "event" data) = Normal element ->
  abstract_eq element "selected" = false ->
  truthy (prop "recordUndo" (prop "event" data)) = true ->
  JSON_parse (prop "data" data) = Some parsed ->
  truthy parsed = true ->
  connected (session (room s)) = true ->
  blockContent (room s) = Some bc ->
  let s' := fst (step (Message data now) s) in
  snd (step (Message data now) s) = Normal tt
  /\ blockContent (room s')
     = Some (<["origin" := VStr (localUserId (editor s))]>
               (<["timestamp" := VNum now]> (<["content" := parsed]> bc)))
  /\ wire (session (room s'))
     = wire (session (room s))
       ++ [BlockSet "content" parsed; BlockSet "timestamp" (VNum now);
           BlockSet "origin" (VStr (localUserId (editor s)))]
  /\ lastEditorUpdate (room s') = VNum now
  /\ pending_applies (timers s') = pending_applies (timers s)
  /\ editor s' = editor s.
Proof.
  intros Hty Hready Hdata Hev Hsel Hundo Hparse Htruthy Hconn Hbc s'.
  subst s'. cbn [step]. unfold onMessage.
  rewrite (handleMessage_change _ _ _ _ _ _ Hty Hready Hdata Hev Hsel Hundo Hparse).
  unfold handleEditorContentChange. rewrite Hbc, Hconn.
  cbn [negb prop assoc change_record String.eqb Ascii.eqb Bool.eqb default from_option id orb].
  rewrite Htruthy. cbn [negb orb].
  rewrite or_else_same, or_else_string.
  unfold block_set; cbn -[setTimeout insert]. rewrite Hbc; cbn -[setTimeout insert].
  rewrite pending_applies_reset, <- !app_assoc. cbn. auto 10.
Qed.

Lemma local_change_published_witness :
  let s' := fst (@step Reference.host
                   (Message (change_message (VStr "[1,2]") (VStr "block") (VBool true))
                      1700000000300) ex_ready) in
  blockContent (room s')
  = Some (<["origin" := VStr "ab12cd"]>
            (<["timestamp" := VNum 1700000000300]>
               (<["content" := VArr [VNum 1; VNum 2]]> ∅)))
  /\ wire (session (room s'))
     = [BlockSet "content" (VArr [VNum 1; VNum 2]);
        BlockSet "timestamp" (VNum 1700000000300);
        BlockSet "origin" (VStr "ab12cd")].
Proof.
  pose proof (@local_change_published Reference.host ex_ready
                (change_message (VStr "[1,2]") (VStr "block") (VBool true))
                1700000000300 (VStr "block") (VArr [VNum 1; VNum 2]) ∅
                eq_refl eq_refl eq_refl eq_refl eq_refl eq_refl eq_refl eq_refl
                eq_refl eq_refl) as (_ & Hmap & Hwire & _).
  split; [exact Hmap|exact Hwire].
Defined.

(** C4. A change notification with no payload, and one whose event is a
    selection or is not recorded for undo, ends in the message listener:
    [onContentChange] is not called, and the room, with its shared map and
    its history of calls, the editor and the timers stay as they were.  The
    page's own guard does the same for a change record without data. *)
Theorem non_propagating_change_dropped `{Host} (s : System) (data : value) (now : Z) :
  get "type" data = Normal (VStr "blocks.updateProject") ->
  truthy (prop "data" data) = false
  \/ (exists element,
        get "element" (prop "event" data) = Normal element
        /\ (abstract_eq element "selected" = true
            \/ truthy (prop "recordUndo" (prop "event" data)) = false)) ->
  handleMessage data now (editorContent (room s)) (editor s) = (editor s, Normal None)
  /\ step (Message data now) s = (s, Normal tt)
  /\ forall content r T,
      truthy content = false \/ truthy (prop "data" content) = false ->
      handleEditorContentChange content now r T = (r, T).
Proof.
  intros Hty Hcase.
  assert (Hh : handleMessage data now (editorContent (room s)) (editor s)
               = (editor s, Normal None)).
  { unfold handleMessage. rewrite Hty. cbn. unfold handleUpdateProject.
    destruct Hcase as [Hdata | (element & Hev & Hdrop)].
    - rewrite Hdata. by rewrite andb_false_r.
    - destruct (editorReady (editor s) && truthy (prop "data" data)); [|reflexivity].
      rewrite Hev. destruct Hdrop as [-> | ->]; [reflexivity|].
      by rewrite orb_true_r. }
  split; [exact Hh|]. split.
  - cbn [step]. unfold onMessage. rewrite Hh. by destruct s.
  - intros content r T Hempty. unfold handleEditorContentChange.
    destruct (blockContent r); [|reflexivity].
    destruct (negb (connected (session r))); [reflexivity|].
    by destruct Hempty as [-> | ->]; rewrite ?orb_true_r.
Qed.

Lemma non_propagating_change_dropped_witness :
  @step Reference.host
    (Message (change_message (VStr "[1,2]") (VStr "selected") (VBool true))
       1700000000300) ex_ready
  = (ex_ready, Normal tt).
Proof.
  exact (proj1 (proj2
           (@non_propagating_change_dropped Reference.host ex_ready
              (change_message (VStr "[1,2]") (VStr "selected") (VBool true))
              1700000000300 eq_refl
              (or_intror (ex_intro _ (VStr "selected")
                            (conj eq_refl (or_introl eq_refl))))))).
Defined.

(** ** Malformed content *)

(** A change whose text does not parse leaves the listener by a
    [SyntaxError]: [handleMessage] has no [try] around its [JSON.parse]. *)
Lemma handleMessage_malformed `{Host} data now initCode e element :
  get "type" data = Normal (VStr "blocks.updateProject") ->
  editorReady e = true ->
  truthy (prop "data" data) = true ->
  get "element" (prop "event" data) = Normal element ->
  abstract_eq element "selected" = false ->
  truthy (prop "recordUndo" (prop "event" data)) = true ->
  JSON_parse (prop "data" data) = None ->
  handleMessage data now initCode e = (e, Throw SyntaxError).
Proof.
  intros Hty Hready Hdata Hev Hsel Hundo Hparse.
  unfold handleMessage. rewrite Hty. cbn.
  unfold handleUpdateProject. by rewrite Hready, Hdata, Hev, Hsel, Hundo, Hparse.
Qed.

(** C5, on the code: the editor frame's change [{oops], which is not JSON,
    makes the message listener throw; the session's state is untouched,
    so nothing is applied or published, but the error is not caught. *)
Theorem malformed_change_escapes :
  @step Reference.host
    (Message (change_message (VStr "{oops") (VStr "block") (VBool true))
       1700000000300) ex_ready
  = (ex_ready, Throw SyntaxError).
Proof. vm_compute. reflexivity. Qed.

(** ** Remote changes: from the shared map to the editor frame *)

Lemma effect_remote `{Host} rec e T :
  remote e rec -> effect rec e T = debounce ApplyRoomState 10 e T.
Proof. intros [Ht Ho]. unfold effect. by rewrite Ht, Ho. Qed.

Lemma tracked_debounce fn d e T :
  tracked e T -> tracked (fst (debounce fn d e T)) (snd (debounce fn d e T)).
Proof.
  intros Htr t Ht Hdeb.
  assert (Hin : In t (pending_applies (snd (debounce fn d e T)))).
  { unfold pending_applies. apply filter_In. auto. }
  rewrite (pending_applies_debounce _ _ _ _ Htr) in Hin.
  destruct Hin as [<-|[]]. by rewrite debounce_unfold.
Qed.

Lemma effects_cons `{Host} rec recs e T :
  effects (rec :: recs) e T
  = effects recs (fst (effect rec e T)) (snd (effect rec e T)).
Proof. unfold effects. cbn. by destruct (effect rec e T). Qed.

Lemma effects_burst `{Host} recs : forall rec e T,
  tracked e T ->
  Forall (remote e) (rec :: recs) ->
  exists id : nat,
    pending_applies (snd (effects (rec :: recs) e T))
    = [{| timer_id := id; timer_task := Debounced ApplyRoomState; timer_delay := 10 |}]
    /\ fst (effects (rec :: recs) e T) = set_debounceTimer (Some id) e.
Proof.
  induction recs as [|rec' recs IH]; intros rec e T Htr Hall;
    apply Forall_cons in Hall as [Hrec Hall];
    rewrite effects_cons, (effect_remote _ _ _ Hrec).
  - exists (next_id T). split.
    + unfold effects; cbn [fold_left fst snd]. by apply pending_applies_debounce.
    + unfold effects; cbn [fold_left fst snd]. by rewrite debounce_unfold.
  - destruct (IH rec' (fst (debounce ApplyRoomState 10 e T))
                (snd (debounce ApplyRoomState 10 e T))) as (id & Hp & He).
    + by apply tracked_debounce.
    + rewrite debounce_unfold. exact Hall.
    + exists id. split; [exact Hp|]. rewrite He. by rewrite debounce_unfold.
Qed.

Lemma loadCode_unfold `{Host} code e :
  loads (loadCode code e) = loads e ++ [code]
  /\ posted (loadCode code e) = posted e ++ delivery code e
  /\ lastRoomState (loadCode code e) = lastRoomState e
  /\ localUserId (loadCode code e) = localUserId e.
Proof.
  unfold loadCode, delivery. cbn.
  destruct (negb (editorReady e) || negb (contentWindow e)); cbn;
    [by rewrite app_nil_r|].
  destruct (JSON_clone code); cbn; by rewrite ?app_nil_r.
Qed.

(** What the timeout of [debounce] does for a record that is there. *)
Lemma debounced_present `{Host} rec e :
  truthy rec = true ->
  let data := prop "data" rec in
  let e' := fst (debounced ApplyRoomState rec e) in
  snd (debounced ApplyRoomState rec e) = Normal tt
  /\ debounceTimer e' = None
  /\ if bool_decide (JSON_stringify data = JSON_stringify (lastRoomState e))
     then loads e' = loads e /\ posted e' = posted e
          /\ lastRoomState e' = lastRoomState e
     else loads e' = loads e ++ [data]
          /\ posted e' = posted e ++ delivery data e
          /\ lastRoomState e' = data.
Proof.
  intros Ht data e'. subst data e'.
  unfold debounced, run_callback, applyRoomState.
  assert (Hget : get "data" rec = Normal (prop "data" rec)).
  { destruct rec; try discriminate; reflexivity. }
  rewrite Hget.
  destruct (bool_decide _); cbn; [auto|].
  destruct (loadCode_unfold (prop "data" rec) e) as (-> & -> & _). auto.
Qed.

(** C2. A burst of one or more remote records, the effect running for each
    with no timeout firing in between, leaves exactly one deferred apply
    pending and has applied nothing.  When that timeout runs it reads the
    record current then, the last of the burst: if the payload's text
    differs from that of [lastRoomState], [loadCode] is called once, with
    that payload, and posts it to a ready frame; if it is the same,
    [loadCode] is not called at all. *)
Theorem burst_applies_once `{Host} (e : Editor) (T : Timers)
    (recs : list value) (last : value) :
  tracked e T ->
  Forall (remote e) (recs ++ [last]) ->
  exists id : nat,
    pending_applies (snd (effects (recs ++ [last]) e T))
    = [{| timer_id := id; timer_task := Debounced ApplyRoomState; timer_delay := 10 |}]
    /\ fst (effects (recs ++ [last]) e T) = set_debounceTimer (Some id) e
    /\ let e' := fst (debounced ApplyRoomState last
                        (fst (effects (recs ++ [last]) e T))) in
       snd (debounced ApplyRoomState last (fst (effects (recs ++ [last]) e T)))
       = Normal tt
       /\ debounceTimer e' = None
       /\ if bool_decide (JSON_stringify (prop "data" last)
                          = JSON_stringify (lastRoomState e))
          then loads e' = loads e /\ posted e' = posted e
               /\ lastRoomState e' = lastRoomState e
          else loads e' = loads e ++ [prop "data" last]
               /\ posted e' = posted e ++ delivery (prop "data" last) e
               /\ lastRoomState e' = prop "data" last.
Proof.
  intros Htr Hall.
  assert (Hlast : truthy last = true).
  { apply (proj1 (Forall_forall _ _) Hall last).
    apply elem_of_app. right. constructor. }
  assert (exists rec rest, recs ++ [last] = rec :: rest) as (rec & rest & Heq).
  { destruct recs; cbn; eauto. }
  rewrite Heq in *.
  destruct (effects_burst rest rec e T Htr Hall) as (id & Hp & He).
  exists id. split; [exact Hp|]. split; [exact He|].
  rewrite He. exact (debounced_present last _ Hlast).
Qed.

Lemma burst_applies_once_witness :
  exists id : nat,
    pending_applies
      (snd (@effects Reference.host [ex_record_X; ex_record_Y]
              (editor ex_ready) (timers ex_ready)))
    = [{| timer_id := id; timer_task := Debounced ApplyRoomState; timer_delay := 10 |}]
    /\ loads (fst (@debounced Reference.host ApplyRoomState ex_record_Y
                     (fst (@effects Reference.host [ex_record_X; ex_record_Y]
                             (editor ex_ready) (timers ex_ready)))))
       = [VNull; VStr "Y"].
Proof.
  assert (Htr : tracked (editor ex_ready) (timers ex_ready)) by (intros t []).
  assert (Hall : Forall (@remote Reference.host (editor ex_ready))
                   ([ex_record_X] ++ [ex_record_Y])).
  { repeat constructor. }
  destruct (@burst_applies_once Reference.host (editor ex_ready) (timers ex_ready)
              [ex_record_X] ex_record_Y Htr Hall)
    as (id & Hp & _ & _ & _ & Hif).
  exists id. split; [exact Hp|].
  destruct (bool_decide _) eqn:Hb in Hif; [discriminate Hb|].
  exact (proj1 Hif).
Defined.

(** C1, as the code has it.  Whether a deferred apply is scheduled depends
    on the record being there and on its origin, not on its payload: a
    record that is missing, or whose origin is the editor's own identifier,
    leaves the editor and the timers as they were; any other record gets a
    deferred apply, which replaces the pending one.  The payload is compared
    with [lastRoomState] when the timeout runs: [loadCode] is called exactly
    when the two texts differ. *)
Theorem origin_guard_then_value_check `{Host} (initCode : value) (e : Editor)
    (T : Timers) :
  tracked e T ->
  (if negb (truthy initCode) || abstract_eq (prop "origin" initCode) (localUserId e)
   then effect initCode e T = (e, T)
   else pending_applies (snd (effect initCode e T)) = [new_apply ApplyRoomState 10 T]
        /\ fst (effect initCode e T) = set_debounceTimer (Some (next_id T)) e)
  /\ (truthy initCode = true ->
      loads (fst (debounced ApplyRoomState initCode e))
      = loads e
        ++ (if bool_decide (JSON_stringify (prop "data" initCode)
                            = JSON_stringify (lastRoomState e))
            then [] else [prop "data" initCode])).
Proof.
  intros Htr. split.
  - unfold effect.
    destruct (negb (truthy initCode) || _); [reflexivity|].
    split; [by apply pending_applies_debounce|by rewrite debounce_unfold].
  - intros Ht. destruct (debounced_present initCode e Ht) as (_ & _ & Hif).
    destruct (bool_decide _); [by rewrite app_nil_r; apply Hif|apply Hif].
Qed.

Lemma origin_guard_then_value_check_witness :
  @effect Reference.host ex_record_own (editor ex_ready) (timers ex_ready)
  = (editor ex_ready, timers ex_ready)
  /\ pending_applies
       (snd (@effect Reference.host ex_record_X (editor ex_ready) (timers ex_ready)))
     = [new_apply ApplyRoomState 10 (timers ex_ready)].
Proof.
  split.
  - exact (proj1 (@origin_guard_then_value_check Reference.host ex_record_own
                    (editor ex_ready) (timers ex_ready)
                    (fun t (Ht : In t []) => match Ht with end))).
  - exact (proj1 (proj1 (@origin_guard_then_value_check Reference.host ex_record_X
                           (editor ex_ready) (timers ex_ready)
                           (fun t (Ht : In t []) => match Ht with end)))).
Defined.

(** C1 as stated fails: the record the editor's own change comes back as
    has a payload, ["X"], that differs from the last applied one, [null],
    and the effect schedules nothing for it. *)
Lemma own_origin_never_scheduled :
  @JSON_stringify Reference.host (prop "data" ex_record_own)
  <> @JSON_stringify Reference.host (lastRoomState (editor ex_ready))
  /\ pending_applies (timers ex_ready) = []
  /\ pending_applies
       (snd (@effect Reference.host ex_record_own (editor ex_ready) (timers ex_ready)))
     = []
  /\ debounceTimer
       (fst (@effect Reference.host ex_record_own (editor ex_ready) (timers ex_ready)))
     = None.
Proof. split; [vm_compute; discriminate|]. repeat split. Qed.

(** ** Initial synchronisation *)

Lemma find_after_fresh (id : nat) (x : timer) (l : list timer) :
  (forall t, In t l -> timer_id t <> id) ->
  timer_id x = id ->
  List.find (fun t => Nat.eqb (timer_id t) id) (l ++ [x]) = Some x.
Proof.
  intros Hl Hx. induction l as [|t l IH]; cbn.
  - by rewrite (proj2 (Nat.eqb_eq _ _) Hx).
  - rewrite (proj2 (Nat.eqb_neq _ _) (Hl t (or_introl eq_refl))).
    apply IH. intros t' Ht'. apply Hl. by right.
Qed.

Lemma find_new_apply fn d e T :
  timers_ok e T ->
  find_timer (next_id T) (snd (debounce fn d e T)) = Some (new_apply fn d T).
Proof.
  intros (_ & Hlt & _). rewrite debounce_unfold. unfold find_timer, setTimeout. cbn.
  assert (Hnext : next_id (cleared e T) = next_id T).
  { unfold cleared. by destruct (debounceTimer e). }
  rewrite Hnext. apply find_after_fresh; [|reflexivity].
  intros t Ht. assert (Hin : In t (pending T)).
  { unfold cleared in Ht. destruct (debounceTimer e); [|trivial].
    by apply In_clearTimeout in Ht as [Ht _]. }
  specialize (Hlt t Hin). lia.
Qed.

Lemma onProviderStatus_connects now r bc :
  connected (session r) = false ->
  blockContent r = Some bc ->
  truthy (block_get "content" bc) = true ->
  onProviderStatus "connected" now r
  = (set_editorContent
       (content_record (block_get "content" bc)
          (or_else (block_get "timestamp" bc) (VNum now))
          (or_else (block_get "origin" bc) (VStr "")))
       (set_session (set_connected true (session r)) r),
     Normal tt).
Proof.
  intros Hc Hbc Ht. unfold onProviderStatus. rewrite Hc. cbn. by rewrite Hbc, Ht.
Qed.

(** C8, as the code has it.  When the provider reports [connected] to a
    session that was not, and the content map holds content, the listener
    assigns the stored record to [editorContent] at once, without waiting
    for a change of the map, and does nothing else: no call of [loadCode],
    no message to the frame.  The editor's effect then treats the record
    like any other: for an origin that is not the editor's own it sets the
    deferred apply, and the content reaches the frame when that timeout
    runs, if its text differs from that of [lastRoomState]. *)
Theorem initial_sync_is_debounced `{Host} (s : System) (now : Z)
    (bc : gmap string value) :
  connected (session (room s)) = false ->
  blockContent (room s) = Some bc ->
  truthy (block_get "content" bc) = true ->
  timers_ok (editor s) (timers s) ->
  let content := block_get "content" bc in
  let origin := or_else (block_get "origin" bc) (VStr "") in
  let rec := content_record content (or_else (block_get "timestamp" bc) (VNum now)) origin in
  let s1 := fst (step (Status "connected" now) s) in
  let s2 := fst (step EffectRun s1) in
  let s3 := fst (step (TimerFired (next_id (timers s))) s2) in
  let changed :=
    negb (bool_decide (JSON_stringify content = JSON_stringify (lastRoomState (editor s)))) in
  (connected (session (room s1)) = true /\ editorContent (room s1) = rec
   /\ editor s1 = editor s /\ timers s1 = timers s)
  /\ (loads (editor s2) = loads (editor s) /\ posted (editor s2) = posted (editor s))
  /\ (abstract_eq origin (localUserId (editor s)) = false ->
      pending_applies (timers s2) = [new_apply ApplyRoomState 10 (timers s)]
      /\ loads (editor s3)
         = loads (editor s) ++ (if changed then [content] else [])
      /\ posted (editor s3)
         = posted (editor s) ++ (if changed then delivery content (editor s) else [])).
Proof.
  intros Hc Hbc Ht Hok content origin rec s1 s2 s3 changed.
  assert (Hs1 : s1 = {| room := set_editorContent rec
                                   (set_session (set_connected true (session (room s))) (room s));
                        editor := editor s; timers := timers s |}).
  { subst s1. cbn [step]. by rewrite (onProviderStatus_connects now _ _ Hc Hbc Ht). }
  split; [by rewrite Hs1|].
  assert (Hrec : truthy rec = true) by reflexivity.
  assert (Horigin : prop "origin" rec = origin) by reflexivity.
  subst s2 s3. rewrite Hs1. cbn [step room editor timers editorContent set_editorContent].
  unfold effect. rewrite Hrec, Horigin. cbn [negb orb].
  destruct (abstract_eq origin (localUserId (editor s))) eqn:Ho.
  - split; [by split|]. discriminate.
  - pose proof (find_new_apply ApplyRoomState 10 _ _ Hok) as Hfind.
    pose proof (pending_applies_debounce ApplyRoomState 10 _ _ (proj2 (proj2 Hok))) as Hp.
    pose proof (debounce_unfold ApplyRoomState 10 (editor s) (timers s)) as Hd.
    destruct (debounce ApplyRoomState 10 (editor s) (timers s)) as [e2 T2].
    cbn [fst snd] in *. injection Hd as -> HT2.
    split; [by split|]. intros _. split; [exact Hp|].
    unfold fire. cbn [timers]. rewrite Hfind. cbn [timer_task new_apply room editor editorContent set_editorContent].
    destruct (debounced_present rec (set_debounceTimer (Some (next_id (timers s))) (editor s)) Hrec)
      as (Hn & _ & Hif).
    destruct (debounced ApplyRoomState rec _) as [e3 c3]. cbn [fst snd] in *.
    subst changed. change (prop "data" rec) with content in Hif.
    change (lastRoomState (set_debounceTimer _ (editor s))) with (lastRoomState (editor s)) in Hif.
    destruct (bool_decide _); cbn [negb fst editor].
    + destruct Hif as (-> & -> & _). by rewrite !app_nil_r.
    + destruct Hif as (-> & -> & _). by split.
Qed.

Lemma initial_sync_is_debounced_witness :
  let s1 := fst (@step Reference.host (Status "connected" 1700000000900)
                   ex_before_connect) in
  let s2 := fst (@step Reference.host EffectRun s1) in
  editorContent (room s1) = ex_record_X
  /\ posted (editor s2) = posted (editor ex_before_connect)
  /\ pending_applies (timers s2)
     = [new_apply ApplyRoomState 10 (timers ex_before_connect)].
Proof.
  assert (Hok : timers_ok (editor ex_before_connect) (timers ex_before_connect)).
  { apply (@reachable_timers_ok Reference.host).
    apply (@reachable_run Reference.host). apply (@reachable_initial Reference.host). }
  destruct (@initial_sync_is_debounced Reference.host ex_before_connect
              1700000000900 ex_remote_X eq_refl eq_refl eq_refl Hok)
    as ((_ & Hrec & _) & (_ & Hposted) & Hremote).
  split; [exact Hrec|]. split; [exact Hposted|].
  exact (proj1 (Hremote eq_refl)).
Defined.

(** C8 as stated fails: the content map holds ["X"] when the provider
    reports [connected]; after the listener, and after the effect it
    triggers, the frame has not been sent ["X"] and [loadCode] has not been
    called with it, a deferred apply of 10 ms is pending, and ["X"] is
    posted when that timeout fires. *)
Lemma initial_sync_waits_for_timer :
  let s2 := @run Reference.host [Status "connected" 1700000000900; EffectRun]
              ex_before_connect in
  connected (session (room ex_before_connect)) = false
  /\ blockContent (room ex_before_connect) = Some ex_remote_X
  /\ connected (session (room s2)) = true
  /\ editorContent (room s2) = ex_record_X
  /\ posted (editor s2) = [update_message VNull]
  /\ loads (editor s2) = [VNull]
  /\ pending_applies (timers s2)
     = [{| timer_id := 3; timer_task := Debounced ApplyRoomState; timer_delay := 10 |}]
  /\ posted (editor (@run Reference.host [TimerFired 3] s2))
     = [update_message VNull; update_message (VStr "X")].
Proof. vm_compute. repeat split. Qed.

(** * Further properties of the components *)

(** ** The debug panel *)

Lemma debug_length clock message log :
  (length (debug clock message log) <= 20)%nat.
Proof.
  unfold debug. rewrite length_app, length_skipn. cbn. lia.
Qed.

Lemma recent_skipn {A} (j : nat) (l r : list A) :
  (j <= length l)%nat ->
  (20 <= length l - j + length r)%nat ->
  skipn (length (skipn j l ++ r) - 20) (skipn j l ++ r)
  = skipn (length (l ++ r) - 20) (l ++ r).
Proof.
  intros Hj Hlen.
  assert (Heq : skipn j l ++ r = skipn j (l ++ r)).
  { rewrite skipn_app. replace (j - length l)%nat with 0%nat by lia. reflexivity. }
  rewrite Heq, length_skipn, skipn_skipn. f_equal.
  rewrite length_app in *. lia.
Qed.

Lemma debug_keeps_recent clock message log rest :
  (length log <= 20)%nat ->
  skipn (length (debug clock message log ++ rest) - 20)
    (debug clock message log ++ rest)
  = skipn (length (log ++ debug_line clock message :: rest) - 20)
      (log ++ debug_line clock message :: rest).
Proof.
  intros Hlen. unfold debug. rewrite <- !app_assoc. cbn [app].
  destruct (le_lt_dec (length log) 19) as [Hle | Hgt].
  - replace (length log - 19)%nat with 0%nat by lia. reflexivity.
  - apply recent_skipn; cbn [length]; lia.
Qed.

Lemma debugs_recent calls : forall log,
  (length log <= 20)%nat ->
  debugs calls log
  = skipn (length (log ++ map (fun c => debug_line (fst c) (snd c)) calls) - 20)
      (log ++ map (fun c => debug_line (fst c) (snd c)) calls).
Proof.
  induction calls as [|c calls IH]; intros log Hlen.
  - cbn. rewrite app_nil_r. replace (length log - 20)%nat with 0%nat by lia.
    reflexivity.
  - change (debugs (c :: calls) log) with (debugs calls (debug (fst c) (snd c) log)).
    rewrite IH by apply debug_length. cbn [map].
    by apply debug_keeps_recent.
Qed.

(** X1. The debug panel holds the 20 most recent lines, oldest first: after
    any calls of [debug] on a log of at most 20 lines, the log is the last
    20 of the old lines followed by the new ones, and after a call it never
    has more than 20. *)
Theorem debug_panel_recent (calls : list (string * string)) (log : list string) :
  (length log <= 20)%nat ->
  let all := log ++ map (fun c => debug_line (fst c) (snd c)) calls in
  debugs calls log = skipn (length all - 20) all
  /\ (length (debugs calls log) <= 20)%nat
  /\ forall clock message any, (length (debug clock message any) <= 20)%nat.
Proof.
  intros Hlen all. subst all. split; [by apply debugs_recent|]. split.
  - rewrite debugs_recent by trivial. rewrite length_skipn. lia.
  - intros. apply debug_length.
Qed.

Lemma debug_panel_recent_witness :
  debugs [("10:00:01", "a"); ("10:00:02", "b")] (repeat "x" 19)
  = repeat "x" 18 ++ ["10:00:01 a"; "10:00:02 b"].
Proof.
  exact (proj1 (debug_panel_recent [("10:00:01", "a"); ("10:00:02", "b")]
                  (repeat "x" 19) ltac:(cbn; lia))).
Defined.

(** ** The editor bridge *)

Lemma loadCode_fields `{Host} code e :
  editorReady (loadCode code e) = editorReady e
  /\ lastRoomState (loadCode code e) = lastRoomState e
  /\ debounceTimer (loadCode code e) = debounceTimer e
  /\ localUserId (loadCode code e) = localUserId e
  /\ contentWindow (loadCode code e) = contentWindow e
  /\ (codeLoaded e = true -> codeLoaded (loadCode code e) = true).
Proof.
  unfold loadCode. cbn.
  destruct (negb (editorReady e) || negb (contentWindow e)); [by repeat split|].
  destruct (JSON_clone code); by repeat split.
Qed.

(** X2. [loadCode] posts at most one message, and only to a ready frame
    whose window is there and only when the clone succeeds; then it sets
    [codeLoaded].  In every other case, a failed clone included, nothing is
    posted and [codeLoaded] keeps its value.  It never changes
    [editorReady], [lastRoomState], [debounceTimer] or [localUserId]. *)
Theorem loadCode_guarded `{Host} (code : value) (e : Editor) :
  (editorReady (loadCode code e) = editorReady e
   /\ lastRoomState (loadCode code e) = lastRoomState e
   /\ debounceTimer (loadCode code e) = debounceTimer e
   /\ localUserId (loadCode code e) = localUserId e
   /\ contentWindow (loadCode code e) = contentWindow e)
  /\ match editorReady e && contentWindow e, JSON_clone code with
     | true, Some c =>
         posted (loadCode code e) = posted e ++ [update_message c]
         /\ codeLoaded (loadCode code e) = true
     | _, _ =>
         posted (loadCode code e) = posted e
         /\ codeLoaded (loadCode code e) = codeLoaded e
     end.
Proof.
  unfold loadCode. cbn.
  destruct (editorReady e) eqn:Hr, (contentWindow e) eqn:Hw, (JSON_clone code);
    cbn; repeat split; auto.
Qed.

Lemma handleMessage_ready `{Host} data now initCode e :
  get "type" data = Normal (VStr "blocks.ready") ->
  handleMessage data now initCode e
  = (if negb (is_undefined initCode) && negb (codeLoaded e)
     then loadCode initCode (set_editorReady true e)
     else set_editorReady true e,
     Normal None).
Proof. intros Hty. unfold handleMessage. by rewrite Hty. Qed.

Lemma handleMessages_ready_loaded `{Host} msgs initCode : forall e,
  Forall (fun m => get "type" (fst m) = Normal (VStr "blocks.ready")) msgs ->
  editorReady e = true ->
  codeLoaded e = true ->
  handleMessages msgs initCode e = e.
Proof.
  induction msgs as [|m msgs IH]; intros e Hall Hr Hl; [reflexivity|].
  apply Forall_cons in Hall as [Hm Hall].
  unfold handleMessages. cbn [fold_left].
  rewrite (handleMessage_ready _ _ _ _ Hm), Hl, andb_false_r. cbn [fst].
  assert (Heq : set_editorReady true e = e) by (destruct e; cbn in *; by subst).
  rewrite Heq. by apply IH.
Qed.

(** X3. The ready handshake delivers [initCode] once.  When the frame's
    window is there and [initCode] can be cloned, any run of one or more
    [blocks.ready] messages leaves the editor ready and loaded, and posts
    the clone of [initCode], the whole value the page handed over, exactly
    once if nothing had been loaded before, and not at all otherwise. *)
Theorem ready_loads_once `{Host} (m : value * Z) (msgs : list (value * Z))
    (initCode c : value) (e : Editor) :
  Forall (fun m => get "type" (fst m) = Normal (VStr "blocks.ready")) (m :: msgs) ->
  contentWindow e = true ->
  is_undefined initCode = false ->
  JSON_clone initCode = Some c ->
  let e' := handleMessages (m :: msgs) initCode e in
  editorReady e' = true
  /\ codeLoaded e' = true
  /\ posted e' = posted e ++ (if codeLoaded e then [] else [update_message c])
  /\ loads e' = loads e ++ (if codeLoaded e then [] else [initCode]).
Proof.
  intros Hall Hw Hu Hc e'. subst e'.
  apply Forall_cons in Hall as [Hm Hall].
  unfold handleMessages. cbn [fold_left].
  rewrite (handleMessage_ready _ _ _ _ Hm), Hu. cbn [fst negb andb].
  fold (handleMessages msgs initCode
          (if negb (codeLoaded e) then loadCode initCode (set_editorReady true e)
           else set_editorReady true e)).
  rewrite handleMessages_ready_loaded; trivial;
    unfold loadCode; cbn; rewrite ?Hw, ?Hc;
    destruct (codeLoaded e) eqn:Hl; cbn; rewrite ?app_nil_r; auto.
Qed.

Lemma ready_loads_once_witness :
  posted (@handleMessages Reference.host
            [(ready_message, 1700000000200); (ready_message, 1700000000900)]
            ex_record_X
            (set_contentWindow true (editor (initial "4821" "#3fa9c1" "ab12cd"))))
  = [update_message ex_record_X].
Proof.
  exact (proj1 (proj2 (proj2
           (@ready_loads_once Reference.host (ready_message, 1700000000200)
              [(ready_message, 1700000000900)] ex_record_X ex_record_X
              (set_contentWindow true (editor (initial "4821" "#3fa9c1" "ab12cd")))
              ltac:(repeat constructor) eq_refl eq_refl eq_refl)))).
Defined.


Lemma loadCode_posted `{Host} code e :
  exists more, posted (loadCode code e) = posted e ++ more /\ (length more <= 1)%nat.
Proof.
  destruct (loadCode_unfold code e) as (_ & -> & _).
  eexists. split; [reflexivity|]. unfold delivery.
  destruct (negb (editorReady e) || negb (contentWindow e)); [cbn; lia|].
  destruct (JSON_clone code); cbn; lia.
Qed.

(** X5. What the message listener leaves alone.  Whatever the message, it
    never changes [localUserId], [lastRoomState], [debounceTimer] or
    [contentWindow], never clears [editorReady] or [codeLoaded], and posts
    at most one message to the frame; a message that is not [blocks.ready]
    leaves the whole editor as it was.  A record it hands to
    [onContentChange] carries the editor's [localUserId] as origin and the
    clock's reading as timestamp. *)
Theorem handleMessage_frame `{Host} (data : value) (now : Z) (initCode : value)
    (e : Editor) :
  let e' := fst (handleMessage data now initCode e) in
  (localUserId e' = localUserId e /\ lastRoomState e' = lastRoomState e
   /\ debounceTimer e' = debounceTimer e /\ contentWindow e' = contentWindow e)
  /\ (editorReady e = true -> editorReady e' = true)
  /\ (codeLoaded e = true -> codeLoaded e' = true)
  /\ (exists more, posted e' = posted e ++ more /\ (length more <= 1)%nat)
  /\ (get "type" data <> Normal (VStr "blocks.ready") -> e' = e)
  /\ (forall content,
        snd (handleMessage data now initCode e) = Normal (Some content) ->
        prop "origin" content = VStr (localUserId e)
        /\ prop "timestamp" content = VNum now
        /\ JSON_parse (prop "data" data) = Some (prop "data" content)).
Proof.
  intros e'. subst e'. unfold handleMessage.
  assert (Hsame : forall c : completion (option value),
            (localUserId e = localUserId e /\ lastRoomState e = lastRoomState e
             /\ debounceTimer e = debounceTimer e /\ contentWindow e = contentWindow e)
            /\ (editorReady e = true -> editorReady e = true)
            /\ (codeLoaded e = true -> codeLoaded e = true)
            /\ (exists more, posted e = posted e ++ more /\ (length more <= 1)%nat)).
  { intros _. repeat split; auto. exists []. rewrite app_nil_r. cbn. auto. }
  destruct (get "type" data) as [type|err] eqn:Hty.
  2:{ cbn. destruct (Hsame (Throw err)) as (? & ? & ? & ?).
      repeat split; tauto || discriminate. }
  destruct (is_string "blocks.ready" type) eqn:Hready.
  - assert (type = VStr "blocks.ready") as ->.
    { destruct type; try discriminate. cbn in Hready.
      by apply String.eqb_eq in Hready as ->. }
    cbn [fst snd].
    change (codeLoaded (set_editorReady true e)) with (codeLoaded e).
    destruct (negb (is_undefined initCode) && negb (codeLoaded e)) eqn:Hload.
    + destruct (loadCode_fields initCode (set_editorReady true e))
        as (Hr & Hl & Hd & Hu & Hw & _).
      destruct (loadCode_posted initCode (set_editorReady true e)) as (more & Hm & Hlen).
      rewrite Hl, Hd, Hu, Hw, Hr. cbn.
      repeat split; auto; try congruence; try discriminate.
      * apply andb_true_iff in Hload as [_ Hc]. apply negb_true_iff in Hc. congruence.
      * by exists more.
    + cbn. repeat split; auto; try congruence; try discriminate.
      exists []. rewrite app_nil_r. cbn. auto.
  - destruct (is_string "blocks.updateProject" type);
      [|cbn; destruct (Hsame (Normal None)) as (? & ? & ? & ?);
        repeat split; tauto || discriminate].
    rewrite handleUpdateProject_editor.
    destruct (Hsame (Normal None)) as (? & ? & ? & ?).
    repeat split; try tauto;
      unfold handleUpdateProject in *;
      destruct (editorReady e && truthy (prop "data" data)); try discriminate;
      destruct (get "element" (prop "event" data)); try discriminate;
      destruct (abstract_eq _ "selected" || _); try discriminate;
      destruct (JSON_parse (prop "data" data)); try discriminate;
      cbn in *; by simplify_eq.
Qed.

(** X6. Applying the same content twice makes one apply.  After a deferred
    apply has run for a record, whether or not it reached the frame, a
    later deferred apply for a record whose payload has the same text calls
    [loadCode] not at all and posts nothing, as long as [lastRoomState] has
    not changed in between. *)
Theorem apply_is_idempotent `{Host} (rec rec' : value) (e e2 : Editor) :
  truthy rec = true ->
  truthy rec' = true ->
  JSON_stringify (prop "data" rec') = JSON_stringify (prop "data" rec) ->
  lastRoomState e2 = lastRoomState (fst (debounced ApplyRoomState rec e)) ->
  let e3 := fst (debounced ApplyRoomState rec' e2) in
  loads e3 = loads e2 /\ posted e3 = posted e2
  /\ lastRoomState e3 = lastRoomState e2
  /\ snd (debounced ApplyRoomState rec' e2) = Normal tt.
Proof.
  intros Ht Ht' Htext Hlast e3. subst e3.
  assert (Hsame : JSON_stringify (prop "data" rec') = JSON_stringify (lastRoomState e2)).
  { rewrite Hlast, Htext.
    destruct (debounced_present rec e Ht) as (_ & _ & Hif).
    destruct (bool_decide _) eqn:Hb.
    - apply bool_decide_eq_true in Hb. destruct Hif as (_ & _ & ->). exact Hb.
    - by destruct Hif as (_ & _ & ->). }
  destruct (debounced_present rec' e2 Ht') as (Hn & _ & Hif).
  rewrite (bool_decide_eq_true_2 _ Hsame) in Hif. tauto.
Qed.

Lemma apply_is_idempotent_witness :
  let e1 := fst (@debounced Reference.host ApplyRoomState ex_record_X
                   (editor (initial "4821" "#3fa9c1" "ab12cd"))) in
  let e2 := set_contentWindow true (set_editorReady true e1) in
  posted e1 = []
  /\ lastRoomState e1 = VStr "X"
  /\ posted (fst (@debounced Reference.host ApplyRoomState ex_record_X e2)) = [].
Proof.
  split; [reflexivity|]. split; [reflexivity|].
  exact (proj1 (proj2
           (@apply_is_idempotent Reference.host ex_record_X ex_record_X
              (editor (initial "4821" "#3fa9c1" "ab12cd"))
              (set_contentWindow true
                 (set_editorReady true
                    (fst (@debounced Reference.host ApplyRoomState ex_record_X
                            (editor (initial "4821" "#3fa9c1" "ab12cd"))))))
              eq_refl eq_refl eq_refl eq_refl))).
Defined.

(** ** Presence *)

Lemma pointerMoves_cons ev evs s :
  pointerMoves (ev :: evs) s = pointerMoves evs (handleMouseMove ev s).
Proof. reflexivity. Qed.

Lemma handleMouseMove_offline ev s :
  connected s = false \/ mousePositions s = None -> handleMouseMove ev s = s.
Proof.
  intros [Hc | Hm]; unfold handleMouseMove.
  - rewrite Hc. by destruct (mousePositions s).
  - by rewrite Hm.
Qed.

Lemma pointerMoves_offline evs : forall s,
  connected s = false \/ mousePositions s = None -> pointerMoves evs s = s.
Proof.
  induction evs as [|ev evs IH]; intros s Hoff; [reflexivity|].
  rewrite pointerMoves_cons, (handleMouseMove_offline _ _ Hoff). by apply IH.
Qed.

Lemma handleMouseLeave_offline s :
  connected s = false \/ mousePositions s = None -> handleMouseLeave s = s.
Proof.
  intros [Hc | Hm]; unfold handleMouseLeave.
  - rewrite Hc. by destruct (mousePositions s).
  - by rewrite Hm.
Qed.

(** X7. Every move is published.  While the session is connected and holds
    the map, a sequence of pointer moves makes exactly one [set] call per
    move, in the order of the moves, each under the local identifier with
    the position of that move, the pointer's coordinates less the left and
    top of the tracking area, and the session's color; nothing is held back
    or merged. *)
Theorem every_move_published (evs : list MouseEvent) (s : Session)
    (m : gmap string PresenceEntry) :
  connected s = true ->
  mousePositions s = Some m ->
  wire (pointerMoves evs s)
  = wire s
    ++ map (fun ev =>
              MouseSet (userId s)
                {| entry_x := PrimFloat.sub (clientX ev) (bounds_left ev);
                   entry_y := PrimFloat.sub (clientY ev) (bounds_top ev);
                   entry_color := userColor s |}) evs.
Proof.
  revert s m. induction evs as [|ev evs IH]; intros s m Hc Hm.
  - cbn. by rewrite app_nil_r.
  - rewrite pointerMoves_cons.
    destruct (handleMouseMove_frame ev s) as (Hc' & Hu & Hcol & _ & _).
    pose proof (handleMouseMove_connected ev s m Hc Hm) as Hm'.
    rewrite (IH _ _ (eq_trans Hc' Hc) Hm'), Hu, Hcol.
    unfold handleMouseMove. rewrite Hm, Hc. cbn. by rewrite <- app_assoc.
Qed.

Lemma every_move_published_witness :
  wire (pointerMoves [ex_move1; ex_move2] ex_session)
  = [MouseSet "4821"
       {| entry_x := PrimFloat.one; entry_y := PrimFloat.one;
          entry_color := "#3fa9c1" |};
     MouseSet "4821"
       {| entry_x := PrimFloat.two; entry_y := PrimFloat.one;
          entry_color := "#3fa9c1" |}].
Proof.
  exact (every_move_published [ex_move1; ex_move2] ex_session ∅ eq_refl eq_refl).
Defined.

Lemma entry_handleMouseMove id ev s :
  id <> userId s -> entry id (handleMouseMove ev s) = entry id s.
Proof.
  intros Hne. unfold handleMouseMove, entry.
  destruct (mousePositions s) as [m|] eqn:Hm; [|by rewrite Hm].
  destruct (connected s); cbn; rewrite ?Hm; [|reflexivity].
  by rewrite lookup_insert_ne.
Qed.

Lemma entry_pointerMoves id evs : forall s,
  id <> userId s -> entry id (pointerMoves evs s) = entry id s.
Proof.
  induction evs as [|ev evs IH]; intros s Hne; [reflexivity|].
  rewrite pointerMoves_cons.
  destruct (handleMouseMove_frame ev s) as (_ & Hu & _).
  rewrite IH by (by rewrite Hu). by apply entry_handleMouseMove.
Qed.

Lemma entry_handleMouseLeave id s :
  id <> userId s -> entry id (handleMouseLeave s) = entry id s.
Proof.
  intros Hne. unfold handleMouseLeave, entry.
  destruct (mousePositions s) as [m|] eqn:Hm; [|by rewrite Hm].
  destruct (connected s); cbn; rewrite ?Hm; [|reflexivity].
  by rewrite lookup_delete_ne.
Qed.

Lemma handleMouseLeave_userId s : userId (handleMouseLeave s) = userId s.
Proof.
  unfold handleMouseLeave. destruct (mousePositions s); [|reflexivity].
  by destruct (connected s).
Qed.

Lemma entry_onDestroy id s :
  id <> userId s -> entry id (onDestroy s) = entry id s.
Proof.
  intros Hne. unfold onDestroy, entry.
  destruct (mousePositions s) as [m|] eqn:Hm;
    [destruct (connected s)|]; cbn;
    destruct (provider s); cbn; rewrite ?Hm; trivial;
    by rewrite lookup_delete_ne.
Qed.

(** X8. The local handlers touch no entry but their own: after any pointer
    moves, a leave and the teardown, the entry of every other participant
    in the presence map is what it was. *)
Theorem other_entries_untouched (id : string) (evs : list MouseEvent) (s : Session) :
  id <> userId s ->
  entry id (pointerMoves evs s) = entry id s
  /\ entry id (handleMouseLeave (pointerMoves evs s)) = entry id s
  /\ entry id (onDestroy (handleMouseLeave (pointerMoves evs s))) = entry id s.
Proof.
  intros Hne.
  destruct (pointerMoves_frame evs s) as (_ & Hu & _).
  assert (H1 : entry id (pointerMoves evs s) = entry id s)
    by (by apply entry_pointerMoves).
  assert (H2 : entry id (handleMouseLeave (pointerMoves evs s)) = entry id s).
  { rewrite entry_handleMouseLeave; [trivial|by rewrite Hu]. }
  repeat split; trivial.
  rewrite entry_onDestroy; [trivial|].
  by rewrite handleMouseLeave_userId, Hu.
Qed.

Lemma other_entries_untouched_witness :
  entry "7310"
    (onDestroy (handleMouseLeave (pointerMoves [ex_move1; ex_move2]
       (set_mousePositions (Some {["7310" := position "#aa0000" ex_move1]}) ex_session))))
  = Some (position "#aa0000" ex_move1).
Proof.
  exact (eq_trans
           (proj2 (proj2
              (other_entries_untouched "7310" [ex_move1; ex_move2]
                 (set_mousePositions (Some {["7310" := position "#aa0000" ex_move1]})
                    ex_session)
                 ltac:(discriminate))))
           eq_refl).
Defined.

Lemma onProviderStatus_disconnect status now r :
  status <> "connected" ->
  onProviderStatus status now r
  = (set_session (set_connected false (session r)) r, Normal tt).
Proof.
  intros Hne. unfold onProviderStatus.
  by rewrite (proj2 (String.eqb_neq status "connected") Hne).
Qed.

(** X9. A disconnect leaves the presence entry behind.  A status other than
    [connected] only clears the [connected] flag, in the pointer page's
    listener and in the editor page's: no call goes to the shared-state
    client and the maps keep their content.  From then on pointer moves and
    leaves change nothing, and a teardown releases the provider without
    removing the local entry, which stays in the map. *)
Theorem disconnect_leaves_presence (status : string) (now : Z)
    (evs : list MouseEvent) (r : Room) :
  status <> "connected" ->
  let s := session r in
  let r1 := fst (onProviderStatus status now r) in
  let s1 := handleMouseLeave (pointerMoves evs (session r1)) in
  session r1 = onStatus status s
  /\ snd (onProviderStatus status now r) = Normal tt
  /\ blockContent r1 = blockContent r /\ editorContent r1 = editorContent r
  /\ s1 = set_connected false s
  /\ mousePositions (onDestroy s1) = mousePositions s
  /\ wire (onDestroy s1)
     = wire s ++ match provider s with Some _ => [ProviderDisconnect] | None => [] end.
Proof.
  intros Hne s r1 s1. subst s r1 s1.
  rewrite (onProviderStatus_disconnect _ _ _ Hne). cbn [fst snd].
  assert (Hs : onStatus status (session r) = set_connected false (session r)).
  { unfold onStatus. by rewrite (proj2 (String.eqb_neq status "connected") Hne). }
  rewrite Hs. cbn [session set_session blockContent editorContent].
  rewrite pointerMoves_offline by (by left).
  rewrite handleMouseLeave_offline by (by left).
  repeat split;
    unfold onDestroy; destruct (session r) as [u i c uid col [m|] [p|] w];
    cbn; by rewrite ?app_nil_r.
Qed.

Lemma disconnect_leaves_presence_witness :
  let r := set_session (pointerMoves [ex_move1] ex_session) ex_room_offline in
  let r1 := fst (onProviderStatus "disconnected" 1700000000900 r) in
  entry "4821" (onDestroy (handleMouseLeave (pointerMoves [ex_move2] (session r1))))
  = Some (position "#3fa9c1" ex_move1).
Proof.
  pose proof (disconnect_leaves_presence "disconnected" 1700000000900 [ex_move2]
                (set_session (pointerMoves [ex_move1] ex_session) ex_room_offline)
                ltac:(discriminate)) as (_ & _ & _ & _ & _ & Hmap & _).
  cbv zeta. unfold entry. rewrite Hmap. reflexivity.
Defined.

(** ** The content record *)

Lemma or_else_timestamp a now :
  or_else (or_else a (VNum now)) (VNum 0) = or_else a (VNum now).
Proof.
  unfold or_else. destruct (truthy a) eqn:Ha; [by rewrite Ha|].
  cbn. destruct (Z.eqb_spec now 0); cbn; congruence.
Qed.

Lemma or_else_origin a :
  or_else (or_else a (VStr "")) (VStr "") = or_else a (VStr "").
Proof.
  unfold or_else. destruct (truthy a) eqn:Ha; [by rewrite Ha|reflexivity].
Qed.

Lemma handleEditorContentChange_publishes content now r T bc :
  blockContent r = Some bc ->
  connected (session r) = true ->
  truthy content = true ->
  truthy (prop "data" content) = true ->
  handleEditorContentChange content now r T
  = (set_lastEditorUpdate (or_else (prop "timestamp" content) (VNum now))
       (block_set "origin" (or_else (prop "origin" content) (VStr ""))
          (block_set "timestamp" (or_else (prop "timestamp" content) (VNum now))
             (block_set "content" (prop "data" content)
                (set_syncStatus Sending r)))),
     snd (setTimeout ResetSyncStatus 500 T)).
Proof.
  intros Hbc Hc Ht Hd. unfold handleEditorContentChange.
  by rewrite Hbc, Hc, Ht, Hd.
Qed.

Lemma observe_after_publish content now r T bc :
  blockContent r = Some bc ->
  connected (session r) = true ->
  truthy content = true ->
  truthy (prop "data" content) = true ->
  exists r2 T2,
    observeBlockContent (fst (handleEditorContentChange content now r T))
      (snd (handleEditorContentChange content now r T)) = (r2, T2)
    /\ editorContent r2
       = content_record (prop "data" content)
           (or_else (prop "timestamp" content) (VNum now))
           (or_else (prop "origin" content) (VStr ""))
    /\ lastEditorUpdate r2 = or_else (prop "timestamp" content) (VNum now)
    /\ syncStatus r2 = Receiving
    /\ blockContent r2 = blockContent (fst (handleEditorContentChange content now r T))
    /\ pending_applies T2 = pending_applies T.
Proof.
  intros Hbc Hc Ht Hd.
  rewrite (handleEditorContentChange_publishes _ _ _ _ _ Hbc Hc Ht Hd).
  cbn [fst snd]. unfold block_set; cbn -[setTimeout insert]. rewrite Hbc.
  cbn -[setTimeout insert]. unfold observeBlockContent; cbn -[setTimeout insert].
  unfold block_get. rewrite lookup_insert_ne by discriminate.
  rewrite lookup_insert_ne by discriminate. rewrite lookup_insert_eq.
  cbn -[setTimeout insert]. rewrite Hd.
  rewrite lookup_insert_ne by discriminate. rewrite !lookup_insert_eq.
  cbn -[setTimeout insert].
  rewrite or_else_timestamp, or_else_origin.
  eexists _, _. split; [reflexivity|]. cbn -[setTimeout insert].
  rewrite !pending_applies_reset. repeat split.
Qed.

(** X10. What a client publishes is what its observer reads back.  For a
    change with data, in a connected session, the record the observer
    builds after [handleEditorContentChange] has the published data, the
    change's timestamp or else the clock's reading, and the change's origin
    or else the empty string; [lastEditorUpdate] is that timestamp. *)
Theorem published_record_read_back (content : value) (now : Z) (r : Room)
    (T : Timers) (bc : gmap string value) :
  blockContent r = Some bc ->
  connected (session r) = true ->
  truthy content = true ->
  truthy (prop "data" content) = true ->
  let r1 := fst (handleEditorContentChange content now r T) in
  let T1 := snd (handleEditorContentChange content now r T) in
  let r2 := fst (observeBlockContent r1 T1) in
  editorContent r2
  = content_record (prop "data" content)
      (or_else (prop "timestamp" content) (VNum now))
      (or_else (prop "origin" content) (VStr ""))
  /\ lastEditorUpdate r2 = or_else (prop "timestamp" content) (VNum now)
  /\ syncStatus r2 = Receiving
  /\ blockContent r2 = blockContent r1.
Proof.
  intros Hbc Hc Ht Hd r1 T1 r2. subst r1 T1 r2.
  destruct (observe_after_publish content now r T bc Hbc Hc Ht Hd)
    as (r2 & T2 & -> & H1 & H2 & H3 & H4 & _).
  by repeat split.
Qed.

Lemma published_record_read_back_witness :
  let c := VObj [("data", VStr "X")] in
  let r := set_session ex_session ex_room_offline in
  let r1 := fst (handleEditorContentChange c 1700000000300 r ex_timers) in
  let T1 := snd (handleEditorContentChange c 1700000000300 r ex_timers) in
  editorContent (fst (observeBlockContent r1 T1))
  = content_record (VStr "X") (VNum 1700000000300) (VStr "").
Proof.
  exact (proj1 (published_record_read_back (VObj [("data", VStr "X")])
                  1700000000300 (set_session ex_session ex_room_offline)
                  ex_timers ∅ eq_refl eq_refl eq_refl eq_refl)).
Defined.

(** X11. A removal of the content is not passed on.  When an update from
    the relay leaves the map without content, the observer assigns
    nothing: [editorContent], [lastEditorUpdate] and [syncStatus] keep
    their values and no timeout is set, so the editor keeps what it had.
    The status listener does the same on connecting to a map without
    content. *)
Theorem content_removal_not_passed_on (bc old : gmap string value) (now : Z)
    (r : Room) (T : Timers) :
  blockContent r = Some old ->
  truthy (block_get "content" bc) = false ->
  remoteBlockContent bc r T = (set_blockContent (Some bc) r, T)
  /\ onProviderStatus "connected" now (set_blockContent (Some bc) r)
     = (set_session (set_connected true (session r)) (set_blockContent (Some bc) r),
        Normal tt).
Proof.
  intros Hold Hc. split.
  - unfold remoteBlockContent, observeBlockContent. rewrite Hold. cbn. by rewrite Hc.
  - unfold onProviderStatus. cbn. rewrite Hc.
    by destruct (negb (connected (session r))).
Qed.

Lemma content_removal_not_passed_on_witness :
  let r := set_editorContent ex_record_X (set_blockContent (Some ex_remote_X) ex_room_offline) in
  editorContent (fst (remoteBlockContent ∅ r ex_timers)) = ex_record_X.
Proof.
  pose proof (content_removal_not_passed_on ∅ ex_remote_X 0
                (set_editorContent ex_record_X
                   (set_blockContent (Some ex_remote_X) ex_room_offline))
                ex_timers eq_refl eq_refl) as [Heq _].
  cbv zeta. rewrite Heq. reflexivity.
Defined.

(** ** The page and its editor together *)

(** ** Invariants of a session *)

Lemma filter_filter_swap {A} (p q : A -> bool) (l : list A) :
  List.filter p (List.filter q l) = List.filter q (List.filter p l).
Proof.
  induction l as [|x l IH]; cbn; [reflexivity|].
  destruct (q x) eqn:Hq, (p x) eqn:Hp; cbn; rewrite ?Hq, ?Hp, IH; reflexivity.
Qed.

Lemma pending_applies_clearTimeout id T :
  pending_applies (clearTimeout id T)
  = List.filter (fun t => negb (Nat.eqb (timer_id t) id)) (pending_applies T).
Proof. unfold pending_applies, clearTimeout; cbn. apply filter_filter_swap. Qed.

Lemma pending_applies_maybe_reset T T' :
  T' = T \/ T' = snd (setTimeout ResetSyncStatus 500 T) ->
  pending_applies T' = pending_applies T.
Proof. intros [-> | ->]; [reflexivity|apply pending_applies_reset]. Qed.

Lemma NoDup_map_inj {A B} (f : A -> B) (l : list A) a b :
  NoDup (map f l) -> In a l -> In b l -> f a = f b -> a = b.
Proof.
  induction l as [|x l IH]; cbn; [tauto|].
  intros Hnd Ha Hb Hf. apply NoDup_cons in Hnd as [Hx Hl].
  rewrite list_elem_of_In in Hx.
  destruct Ha as [-> | Ha], Hb as [-> | Hb]; trivial.
  - exfalso. apply Hx. rewrite Hf. by apply in_map.
  - exfalso. apply Hx. rewrite <- Hf. by apply in_map.
  - by apply IH.
Qed.

Lemma handleEditorContentChange_content content now r T :
  editorContent (fst (handleEditorContentChange content now r T)) = editorContent r.
Proof.
  unfold handleEditorContentChange.
  destruct (blockContent r) as [bc|] eqn:Hbc; [|reflexivity].
  destruct (negb (connected (session r))); [reflexivity|].
  destruct (negb (truthy content) || _); [reflexivity|].
  unfold block_set; cbn. rewrite ?Hbc; cbn. rewrite ?Hbc; cbn. by rewrite ?Hbc.
Qed.

Lemma observeBlockContent_content r T :
  content_kept (editorContent r) (editorContent (fst (observeBlockContent r T))).
Proof.
  unfold observeBlockContent, content_kept.
  destruct (blockContent r) as [bc|]; [|by left].
  destruct (truthy (block_get "content" bc)); [right; cbn; eauto|by left].
Qed.

Lemma remoteBlockContent_content bc r T :
  content_kept (editorContent r) (editorContent (fst (remoteBlockContent bc r T))).
Proof.
  unfold remoteBlockContent. destruct (blockContent r); [|by left].
  apply (observeBlockContent_content (set_blockContent (Some bc) r)).
Qed.

Lemma onProviderStatus_content status now r :
  content_kept (editorContent r) (editorContent (fst (onProviderStatus status now r))).
Proof.
  unfold onProviderStatus, content_kept.
  destruct (_ && negb (connected (session r))); [|by left].
  cbn. destruct (blockContent r) as [bc|]; [|by left].
  destruct (truthy (block_get "content" bc)); [right; cbn; eauto|by left].
Qed.

Lemma synced_room_step s r' e' T' :
  pending_applies T' = pending_applies (timers s) ->
  content_kept (editorContent (room s)) (editorContent r') ->
  debounceTimer e' = debounceTimer (editor s) ->
  content_ok s -> synced (editor s) (timers s) ->
  content_ok {| room := r'; editor := e'; timers := T' |} /\ synced e' T'.
Proof.
  intros HT Hkept He Hc Hs. split.
  - unfold content_ok in *. cbn. rewrite HT.
    destruct Hkept as [-> | Hrec]; [exact Hc|by right].
  - unfold synced in *. by rewrite He, HT.
Qed.

Lemma content_ok_record s t :
  content_ok s -> In t (pending (timers s)) -> is_debounced t = true ->
  exists d ts o, editorContent (room s) = content_record d ts o.
Proof.
  intros [[_ Hnone] | Hrec] Hin Hdeb; [|exact Hrec].
  assert (Hp : In t (pending_applies (timers s))).
  { unfold pending_applies. apply filter_In. auto. }
  rewrite Hnone in Hp. destruct Hp.
Qed.

Lemma debounced_record `{Host} d ts o e :
  exists e1, debounced ApplyRoomState (content_record d ts o) e
             = (set_debounceTimer None e1, Normal tt).
Proof.
  unfold debounced, run_callback, applyRoomState. cbn.
  destruct (negb _); eexists; reflexivity.
Qed.

Lemma synced_fire `{Host} id s :
  timers_ok (editor s) (timers s) ->
  content_ok s -> synced (editor s) (timers s) ->
  content_ok (fst (fire id s))
  /\ synced (editor (fst (fire id s))) (timers (fst (fire id s)))
  /\ snd (fire id s) = Normal tt.
Proof.
  intros (Hnd & _ & Htr) Hc Hs. unfold fire.
  destruct (find_timer id (timers s)) as [t|] eqn:Hf; [|auto].
  apply find_timer_Some in Hf as [Hin Hid].
  destruct (timer_task t) as [fn|] eqn:Htask.
  - assert (Hdeb : is_debounced t = true) by (unfold is_debounced; by rewrite Htask).
    destruct (content_ok_record s t Hc Hin Hdeb) as (d & ts & o & Hrec).
    destruct fn. rewrite Hrec.
    destruct (debounced_record d ts o (editor s)) as (e1 & ->).
    cbn [fst snd room editor timers].
    assert (Hnone : pending_applies (clearTimeout id (timers s)) = []).
    { rewrite pending_applies_clearTimeout. unfold synced in Hs.
      rewrite (Htr t Hin Hdeb), Hid in Hs. rewrite Hs. cbn.
      by rewrite Nat.eqb_refl. }
    repeat split.
    + right. cbn. eauto.
    + unfold synced. exact Hnone.
  - cbn [fst snd room editor timers].
    assert (Hsame : pending_applies (clearTimeout id (timers s))
                    = pending_applies (timers s)).
    { rewrite pending_applies_clearTimeout.
      unfold synced in Hs. destruct (debounceTimer (editor s)) as [id0|];
        rewrite Hs; [|reflexivity]. cbn.
      destruct (Nat.eqb_spec id0 id) as [Heq | Hne]; [|reflexivity]. exfalso.
      set (t0 := {| timer_id := id0; timer_task := Debounced ApplyRoomState;
                    timer_delay := 10 |}) in *.
      assert (Hin0 : In t0 (pending (timers s))).
      { assert (Hp : In t0 (pending_applies (timers s))) by (rewrite Hs; by left).
        unfold pending_applies in Hp. by apply filter_In in Hp as [? _]. }
      assert (t0 = t) as Ht0.
      { apply (NoDup_map_inj timer_id (pending (timers s))); trivial.
        cbn. congruence. }
      rewrite <- Ht0 in Htask. discriminate. }
    split; [|split; [|reflexivity]].
    + unfold content_ok in *. cbn [room timers]. rewrite Hsame. exact Hc.
    + unfold synced in *. by rewrite Hsame.
Qed.

Lemma synced_step `{Host} ev s :
  timers_ok (editor s) (timers s) ->
  content_ok s -> synced (editor s) (timers s) ->
  content_ok (fst (step ev s))
  /\ synced (editor (fst (step ev s))) (timers (fst (step ev s))).
Proof.
  intros Hok Hc Hs.
  assert (Hleft : forall v, content_kept v v) by (by left).
  destruct ev; cbn [step].
  - by apply (synced_room_step s).
  - by apply (synced_room_step s).
  - pose proof (onProviderStatus_content status now (room s)) as Hk.
    destruct (onProviderStatus status now (room s)) as [r c]. cbn in *.
    by apply (synced_room_step s).
  - by apply (synced_room_step s).
  - by apply (synced_room_step s).
  - by apply (synced_room_step s).
  - by apply (synced_room_step s).
  - pose proof (observeBlockContent_content (room s) (timers s)) as Hk.
    pose proof (pending_applies_maybe_reset _ _
                  (observeBlockContent_timers (room s) (timers s))) as HT.
    destruct (observeBlockContent (room s) (timers s)) as [r T]. cbn in *.
    by apply (synced_room_step s).
  - pose proof (remoteBlockContent_content bc (room s) (timers s)) as Hk.
    pose proof (pending_applies_maybe_reset _ _
                  (remoteBlockContent_timers bc (room s) (timers s))) as HT.
    destruct (remoteBlockContent bc (room s) (timers s)) as [r T]. cbn in *.
    by apply (synced_room_step s).
  - unfold onMessage.
    pose proof (handleMessage_debounceTimer data now (editorContent (room s)) (editor s)) as He.
    destruct (handleMessage data now (editorContent (room s)) (editor s))
      as [e [[content|]|err]]; cbn in *;
      try (by apply (synced_room_step s)).
    pose proof (handleEditorContentChange_content content now (room s) (timers s)) as Hk.
    pose proof (pending_applies_maybe_reset _ _
                  (handleEditorContentChange_timers content now (room s) (timers s))) as HT.
    destruct (handleEditorContentChange content now (room s) (timers s)) as [r T].
    cbn in *. apply (synced_room_step s); trivial. by left.
  - unfold effect.
    destruct (negb (truthy (editorContent (room s))) || _) eqn:Hskip.
    + cbn. by apply (synced_room_step s).
    + apply orb_false_iff in Hskip as [Htruthy _]. apply negb_false_iff in Htruthy.
      pose proof (pending_applies_debounce ApplyRoomState 10 _ _ (proj2 (proj2 Hok))) as Hp.
      pose proof (debounce_unfold ApplyRoomState 10 (editor s) (timers s)) as Hd.
      destruct (debounce ApplyRoomState 10 (editor s) (timers s)) as [e T].
      cbn [fst snd room editor timers] in *. injection Hd as -> _. split.
      * right. destruct Hc as [[Hnull _] | Hrec]; [|exact Hrec].
        rewrite Hnull in Htruthy. discriminate.
      * unfold synced. cbn. exact Hp.
  - destruct (synced_fire id s Hok Hc Hs) as (? & ? & _). by split.
  - apply (synced_room_step s); trivial. apply loadRoomState_debounceTimer.
  - by apply (synced_room_step s).
Qed.

Lemma reachable_synced `{Host} s :
  reachable s -> content_ok s /\ synced (editor s) (timers s).
Proof.
  induction 1 as [uid color local|ev s Hr [Hc Hs]].
  - split; [by left|reflexivity].
  - apply synced_step; trivial. by apply reachable_timers_ok.
Qed.

(** X13. A timeout that fires does not throw.  In every state a session
    reaches, whichever timeout fires returns normally: the deferred apply
    finds a record in [initCode] when it reads [initCode.data], never
    [null], because nothing is scheduled while [editorContent] is the
    initial [null] and [editorContent] is never set back to it. *)
Theorem fired_timeout_returns `{Host} (s : System) (id : nat) :
  reachable s ->
  snd (step (TimerFired id) s) = Normal tt
  /\ ((exists t, find_timer id (timers s) = Some t /\ is_debounced t = true) ->
      exists d ts o, editorContent (room s) = content_record d ts o).
Proof.
  intros Hr.
  destruct (reachable_synced s Hr) as [Hc Hs].
  pose proof (reachable_timers_ok s Hr) as Hok.
  split.
  - cbn [step]. by destruct (synced_fire id s Hok Hc Hs) as (_ & _ & ?).
  - intros (t & Hf & Hdeb). apply find_timer_Some in Hf as [Hin _].
    by apply (content_ok_record s t).
Qed.

Lemma fired_timeout_returns_witness :
  snd (@step Reference.host (TimerFired 4) ex_system) = Normal tt
  /\ ((exists t, find_timer 4 (timers ex_system) = Some t /\ is_debounced t = true) ->
      exists d ts o, editorContent (room ex_system) = content_record d ts o).
Proof.
  exact (@fired_timeout_returns Reference.host ex_system 4
           (@reachable_run Reference.host ex_events _
              (@reachable_initial Reference.host "4821" "#3fa9c1" "ab12cd"))).
Defined.

(** X14. [debounceTimer] is never stale.  In every state a session reaches,
    [debounceTimer] holds an identifier exactly when a deferred apply is
    pending, and then it is the identifier of that one timeout, which is
    the 10 ms apply of the room state; it is [undefined] exactly when none
    is pending. *)
Theorem debounceTimer_names_pending_apply `{Host} (s : System) :
  reachable s ->
  match debounceTimer (editor s) with
  | Some id =>
      pending_applies (timers s)
      = [{| timer_id := id; timer_task := Debounced ApplyRoomState; timer_delay := 10 |}]
  | None => pending_applies (timers s) = []
  end.
Proof. intros Hr. by destruct (reachable_synced s Hr) as [_ Hs]. Qed.

Lemma debounceTimer_names_pending_apply_witness :
  match debounceTimer (editor ex_system) with
  | Some id =>
      pending_applies (timers ex_system)
      = [{| timer_id := id; timer_task := Debounced ApplyRoomState; timer_delay := 10 |}]
  | None => pending_applies (timers ex_system) = []
  end.
Proof.
  exact (@debounceTimer_names_pending_apply Reference.host ex_system
           (@reachable_run Reference.host ex_events _
              (@reachable_initial Reference.host "4821" "#3fa9c1" "ab12cd"))).
Defined.

(** ** The bridge's bookkeeping *)

Lemma bridge_ok_loadCode `{Host} code e : bridge_ok e -> bridge_ok (loadCode code e).
Proof.
  intros (Hiff & Hready & Hall & Hlen & Hlast).
  unfold loadCode, bridge_ok. cbn.
  destruct (editorReady e) eqn:Hr, (contentWindow e) eqn:Hw; cbn;
    try (rewrite Hr; repeat split; try tauto;
         [rewrite length_app; cbn; lia
         |destruct Hlast; [by left|right; apply in_app_iff; by left]]).
  destruct (JSON_clone code) as [c|]; cbn; rewrite ?Hr.
  - repeat split; trivial.
    + by destruct (posted e).
    + apply Forall_app. split; [trivial|]. apply Forall_singleton. by exists c.
    + rewrite !length_app. cbn. lia.
    + destruct Hlast; [by left|right; apply in_app_iff; by left].
  - repeat split; try tauto.
    + rewrite length_app; cbn; lia.
    + destruct Hlast; [by left|right; apply in_app_iff; by left].
Qed.

Lemma bridge_ok_fields e e' :
  codeLoaded e' = codeLoaded e -> posted e' = posted e -> loads e' = loads e ->
  lastRoomState e' = lastRoomState e ->
  (editorReady e = true -> editorReady e' = true) ->
  bridge_ok e -> bridge_ok e'.
Proof.
  unfold bridge_ok. intros -> -> -> -> Hr (? & ? & ? & ? & ?). repeat split; tauto.
Qed.

Lemma bridge_ok_apply `{Host} initCode e :
  bridge_ok e -> bridge_ok (fst (debounced ApplyRoomState initCode e)).
Proof.
  intros Hok. unfold debounced, run_callback, applyRoomState.
  destruct (get "data" initCode) as [data|]; [|exact Hok].
  destruct (negb _); cbn [fst]; [|by apply (bridge_ok_fields e)].
  pose proof (bridge_ok_loadCode data e Hok) as (Hiff & Hready & Hall & Hlen & _).
  destruct (loadCode_unfold data e) as (Hloads & _).
  unfold bridge_ok. cbn. repeat split; try tauto.
  right. rewrite Hloads. apply in_app_iff. right. by left.
Qed.

Lemma bridge_ok_handleMessage `{Host} data now initCode e :
  bridge_ok e -> bridge_ok (fst (handleMessage data now initCode e)).
Proof.
  intros Hok. unfold handleMessage.
  destruct (get "type" data) as [type|]; [|exact Hok].
  destruct (is_string "blocks.ready" type).
  - cbn [fst].
    assert (Hr : bridge_ok (set_editorReady true e)) by (by apply (bridge_ok_fields e)).
    destruct (negb (is_undefined initCode) && _); [by apply bridge_ok_loadCode|exact Hr].
  - destruct (is_string "blocks.updateProject" type); [|exact Hok].
    by rewrite handleUpdateProject_editor.
Qed.

Lemma bridge_ok_loadRoomState `{Host} initCode e :
  bridge_ok e -> bridge_ok (loadRoomState initCode e).
Proof.
  intros Hok. unfold loadRoomState.
  destruct (truthy (lastRoomState e)); [by apply bridge_ok_loadCode|].
  destruct (truthy initCode); [by apply bridge_ok_loadCode|exact Hok].
Qed.

Lemma bridge_ok_step `{Host} ev s :
  bridge_ok (editor s) -> bridge_ok (editor (fst (step ev s))).
Proof.
  intros Hok. destruct ev; cbn [step].
  - exact Hok.
  - by apply (bridge_ok_fields (editor s)).
  - destruct (onProviderStatus status now (room s)); exact Hok.
  - exact Hok.
  - exact Hok.
  - exact Hok.
  - exact Hok.
  - destruct (observeBlockContent (room s) (timers s)); exact Hok.
  - destruct (remoteBlockContent bc (room s) (timers s)); exact Hok.
  - unfold onMessage.
    pose proof (bridge_ok_handleMessage data now (editorContent (room s)) _ Hok) as Hm.
    destruct (handleMessage data now (editorContent (room s)) (editor s))
      as [e [[content|]|err]]; try exact Hm.
    destruct (handleEditorContentChange content now (room s) (timers s)); exact Hm.
  - unfold effect. destruct (negb _ || _); [exact Hok|].
    rewrite debounce_unfold. by apply (bridge_ok_fields (editor s)).
  - unfold fire. destruct (find_timer id (timers s)) as [t|]; [|exact Hok].
    destruct (timer_task t) as [fn|]; [|exact Hok]. destruct fn.
    pose proof (bridge_ok_apply (editorContent (room s)) _ Hok) as Ha.
    destruct (debounced ApplyRoomState (editorContent (room s)) (editor s));
      exact Ha.
  - by apply bridge_ok_loadRoomState.
  - exact Hok.
Qed.

Lemma reachable_bridge_ok `{Host} s : reachable s -> bridge_ok (editor s).
Proof.
  induction 1 as [uid color local|ev s _ IH]; [|by apply bridge_ok_step].
  unfold bridge_ok. cbn. repeat split; try discriminate; try tauto; auto.
Qed.

(** X15. The bridge never sends to a frame that has not reported ready.  In
    every state a session reaches, if anything has been posted to the frame
    then [editorReady] is set, and [codeLoaded] is set exactly when
    something has been posted; every posted message is a
    [blocks.updateProject] message, and there are no more of them than
    calls of [loadCode]. *)
Theorem posts_only_to_ready_frame `{Host} (s : System) :
  reachable s ->
  (posted (editor s) <> [] -> editorReady (editor s) = true)
  /\ (codeLoaded (editor s) = true <-> posted (editor s) <> [])
  /\ Forall is_update (posted (editor s))
  /\ (length (posted (editor s)) <= length (loads (editor s)))%nat.
Proof.
  intros Hr. destruct (reachable_bridge_ok s Hr) as (Hiff & Hready & Hall & Hlen & _).
  repeat split; try tauto.
Qed.

Lemma posts_only_to_ready_frame_witness :
  (posted (editor ex_system) <> [] -> editorReady (editor ex_system) = true)
  /\ (codeLoaded (editor ex_system) = true <-> posted (editor ex_system) <> [])
  /\ Forall is_update (posted (editor ex_system))
  /\ (length (posted (editor ex_system)) <= length (loads (editor ex_system)))%nat.
Proof.
  exact (@posts_only_to_ready_frame Reference.host ex_system
           (@reachable_run Reference.host ex_events _
              (@reachable_initial Reference.host "4821" "#3fa9c1" "ab12cd"))).
Defined.

(** X16. [lastRoomState] is the initial [null] or a value [loadCode] has
    been called with, in every state a session reaches: the editor never
    records as applied a value it has not handed to [loadCode]. *)
Theorem lastRoomState_was_loaded `{Host} (s : System) :
  reachable s ->
  lastRoomState (editor s) = VNull
  \/ In (lastRoomState (editor s)) (loads (editor s)).
Proof.
  intros Hr. by destruct (reachable_bridge_ok s Hr) as (_ & _ & _ & _ & Hlast).
Qed.

Lemma lastRoomState_was_loaded_witness :
  lastRoomState (editor ex_applied) = VNull
  \/ In (lastRoomState (editor ex_applied)) (loads (editor ex_applied)).
Proof.
  exact (@lastRoomState_was_loaded Reference.host ex_applied
           (@reachable_run Reference.host (ex_events ++ [TimerFired 4]) _
              (@reachable_initial Reference.host "4821" "#3fa9c1" "ab12cd"))).
Defined.

(** X17. The [Load Room State] button sends the last applied content
    again.  After a deferred apply has loaded a payload that counts as
    present, a click calls [loadCode] with that same payload, whatever
    [initCode] is, and a ready frame is sent the same message a second
    time; with nothing applied yet and no [initCode], a click does
    nothing. *)
Theorem loadRoomState_resends `{Host} (rec initCode : value) (e : Editor) :
  truthy rec = true ->
  truthy (prop "data" rec) = true ->
  JSON_stringify (prop "data" rec) <> JSON_stringify (lastRoomState e) ->
  let data := prop "data" rec in
  let e1 := fst (debounced ApplyRoomState rec e) in
  loads (loadRoomState initCode e1) = loads e ++ [data; data]
  /\ posted (loadRoomState initCode e1)
     = posted e ++ delivery data e ++ delivery data e
  /\ lastRoomState (loadRoomState initCode e1) = data
  /\ forall e0, truthy (lastRoomState e0) = false ->
                loadRoomState VNull e0 = e0 /\ loadRoomState VUndefined e0 = e0.
Proof.
  intros Ht Hd Hne data e1. subst data e1.
  destruct (debounced_present rec e Ht) as (_ & _ & Hif).
  rewrite (bool_decide_eq_false_2 _ Hne) in Hif.
  destruct Hif as (Hl & Hp & Hlast).
  set (e1 := fst (debounced ApplyRoomState rec e)) in *.
  assert (Hdel : delivery (prop "data" rec) e1 = delivery (prop "data" rec) e).
  { subst e1. unfold debounced, run_callback, applyRoomState.
    assert (Hget : get "data" rec = Normal (prop "data" rec))
      by (destruct rec; try discriminate; reflexivity).
    rewrite Hget, (bool_decide_eq_false_2 _ Hne). cbn [negb fst].
    unfold delivery. cbn.
    destruct (loadCode_fields (prop "data" rec) e) as (-> & _ & _ & _ & -> & _).
    reflexivity. }
  split; [|split; [|split]].
  - unfold loadRoomState. rewrite Hlast, Hd.
    destruct (loadCode_unfold (prop "data" rec) e1) as (-> & _).
    rewrite Hl, <- app_assoc. reflexivity.
  - unfold loadRoomState. rewrite Hlast, Hd.
    destruct (loadCode_unfold (prop "data" rec) e1) as (_ & -> & _).
    rewrite Hp, Hdel, <- app_assoc. reflexivity.
  - unfold loadRoomState. rewrite Hlast, Hd.
    destruct (loadCode_unfold (prop "data" rec) e1) as (_ & _ & -> & _).
    exact Hlast.
  - intros e0 H0. unfold loadRoomState. by rewrite H0.
Qed.

Lemma loadRoomState_resends_witness :
  let e1 := fst (@debounced Reference.host ApplyRoomState ex_record_Y (editor ex_ready)) in
  posted (@loadRoomState Reference.host ex_record_X e1)
  = [update_message VNull; update_message (VStr "Y"); update_message (VStr "Y")].
Proof.
  exact (proj1 (proj2
           (@loadRoomState_resends Reference.host ex_record_Y ex_record_X
              (editor ex_ready) eq_refl eq_refl ltac:(discriminate)))).
Defined.

(** ** The view of the participants *)





(** ** The origin guard and a pending apply *)

(** X19. The origin guard does not cancel what is pending.  When a remote
    record has scheduled a deferred apply and the editor's own record
    arrives before it fires, the effect returns without touching the
    timeout; the timeout then reads the record current at that time, the
    editor's own, and calls [loadCode] with its payload if the text differs
    from that of [lastRoomState]. *)
Theorem own_record_applied_by_pending_apply `{Host} (rec own : value)
    (e : Editor) (T : Timers) :
  tracked e T ->
  remote e rec ->
  truthy own = true ->
  abstract_eq (prop "origin" own) (localUserId e) = true ->
  let e1 := fst (effect rec e T) in
  let T1 := snd (effect rec e T) in
  effect own e1 T1 = (e1, T1)
  /\ pending_applies T1 = [new_apply ApplyRoomState 10 T]
  /\ loads (fst (debounced ApplyRoomState own e1))
     = loads e
       ++ (if bool_decide (JSON_stringify (prop "data" own)
                           = JSON_stringify (lastRoomState e))
           then [] else [prop "data" own]).
Proof.
  intros Htr Hrec Ht Ho e1 T1. subst e1 T1.
  rewrite (effect_remote _ _ _ Hrec), debounce_unfold. cbn [fst snd].
  split; [|split].
  - unfold effect. cbn [localUserId set_debounceTimer]. by rewrite Ht, Ho.
  - pose proof (pending_applies_debounce ApplyRoomState 10 e T Htr) as Hp.
    by rewrite debounce_unfold in Hp.
  - destruct (debounced_present own (set_debounceTimer (Some (next_id T)) e) Ht)
      as (_ & _ & Hif).
    cbn [lastRoomState set_debounceTimer loads] in Hif.
    destruct (bool_decide _); [rewrite app_nil_r|]; apply Hif.
Qed.

Lemma own_record_applied_by_pending_apply_witness :
  let e1 := fst (@effect Reference.host ex_record_Y (editor ex_ready) (timers ex_ready)) in
  let T1 := snd (@effect Reference.host ex_record_Y (editor ex_ready) (timers ex_ready)) in
  @effect Reference.host ex_record_own e1 T1 = (e1, T1)
  /\ loads (fst (@debounced Reference.host ApplyRoomState ex_record_own e1))
     = [VNull; VStr "X"].
Proof.
  assert (Htr : tracked (editor ex_ready) (timers ex_ready)) by (intros t []).
  destruct (@own_record_applied_by_pending_apply Reference.host ex_record_Y
              ex_record_own (editor ex_ready) (timers ex_ready) Htr
              (conj eq_refl eq_refl) eq_refl eq_refl) as (Hskip & _ & Hloads).
  split; [exact Hskip|exact Hloads].
Defined.

(** ** A local change and its editor *)

Lemma fire_no_apply `{Host} id s :
  pending_applies (timers s) = [] ->
  editor (fst (fire id s)) = editor s
  /\ pending_applies (timers (fst (fire id s))) = [].
Proof.
  intros Hnone. unfold fire.
  destruct (find_timer id (timers s)) as [t|] eqn:Hf; [|by split].
  apply find_timer_Some in Hf as [Hin _].
  destruct (timer_task t) as [fn|] eqn:Htask.
  - exfalso. assert (Hp : In t (pending_applies (timers s))).
    { unfold pending_applies. apply filter_In. split; [trivial|].
      unfold is_debounced. by rewrite Htask. }
    rewrite Hnone in Hp. destruct Hp.
  - cbn [fst editor timers]. split; [reflexivity|].
    by rewrite pending_applies_clearTimeout, Hnone.
Qed.

Lemma fires_no_apply `{Host} ids : forall s,
  pending_applies (timers s) = [] ->
  editor (run (map TimerFired ids) s) = editor s.
Proof.
  induction ids as [|id ids IH]; intros s Hnone; [reflexivity|].
  change (run (map TimerFired (id :: ids)) s)
    with (run (map TimerFired ids) (fst (fire id s))).
  destruct (fire_no_apply id s Hnone) as [He Hp].
  rewrite (IH _ Hp). exact He.
Qed.

(** X12. With no deferred apply pending, a local change does not come back
    to its editor.  The change the frame reports is published, the observer
    reads it back into [editorContent] with the editor's own identifier as
    origin, and the effect that follows schedules nothing; whatever
    timeouts fire afterwards, the editor, the messages posted to its frame
    and the calls of [loadCode] included, is what it was before the
    change. *)
Theorem local_change_not_echoed `{Host} (s : System) (data : value) (now : Z)
    (element parsed : value) (bc : gmap string value) :
  get "type" data = Normal (VStr "blocks.updateProject") ->
  editorReady (editor s) = true ->
  truthy (prop "data" data) = true ->
  get "element" (prop "event" data) = Normal element ->
  abstract_eq element "selected" = false ->
  truthy (prop "recordUndo" (prop "event" data)) = true ->
  JSON_parse (prop "data" data) = Some parsed ->
  truthy parsed = true ->
  connected (session (room s)) = true ->
  blockContent (room s) = Some bc ->
  pending_applies (timers s) = [] ->
  let s3 := run [Message data now; BlockObserved; EffectRun] s in
  editorContent (room s3)
  = content_record parsed (VNum now) (VStr (localUserId (editor s)))
  /\ editor s3 = editor s
  /\ pending_applies (timers s3) = []
  /\ forall ids,
      editor (run (map TimerFired ids) s3) = editor s
      /\ posted (editor (run (map TimerFired ids) s3)) = posted (editor s)
      /\ loads (editor (run (map TimerFired ids) s3)) = loads (editor s).
Proof.
  intros Hty Hready Hdata Hev Hsel Hundo Hparse Htruthy Hconn Hbc Hnone s3.
  assert (Hrun : editorContent (room s3)
                 = content_record parsed (VNum now) (VStr (localUserId (editor s)))
                 /\ editor s3 = editor s
                 /\ pending_applies (timers s3) = pending_applies (timers s)).
  { subst s3. unfold run. cbn [fold_left step]. unfold onMessage.
    rewrite (handleMessage_change _ _ _ _ _ _ Hty Hready Hdata Hev Hsel Hundo Hparse).
    destruct (observe_after_publish
                (change_record parsed (localUserId (editor s)) now) now
                (room s) (timers s) bc Hbc Hconn eq_refl Htruthy)
      as (r2 & T2 & Hobs & Hrec & _ & _ & _ & HT).
    destruct (handleEditorContentChange _ now (room s) (timers s)) as [r1 T1].
    cbn [fst snd room editor timers] in *. rewrite Hobs.
    cbn [fst snd room editor timers].
    assert (Hec : editorContent r2
                  = content_record parsed (VNum now) (VStr (localUserId (editor s)))).
    { rewrite Hrec. cbn [prop assoc change_record String.eqb Ascii.eqb Bool.eqb
                         default from_option id].
      by rewrite or_else_same, or_else_string. }
    unfold effect. rewrite Hec.
    cbn [truthy content_record negb orb prop assoc String.eqb Ascii.eqb Bool.eqb
         default from_option id abstract_eq].
    rewrite String.eqb_refl. cbn [fst room editor timers].
    by rewrite Hec. }
  destruct Hrun as (Hec & He & Hp). rewrite Hnone in Hp.
  split; [exact Hec|]. split; [exact He|]. split; [exact Hp|].
  intros ids. rewrite (fires_no_apply ids s3 Hp), He. by repeat split.
Qed.

Lemma local_change_not_echoed_witness :
  let s3 := @run Reference.host
              [Message (change_message (VStr "[1,2]") (VStr "block") (VBool true))
                 1700000000300;
               BlockObserved; EffectRun] ex_ready in
  editorContent (room s3)
  = content_record (VArr [VNum 1; VNum 2]) (VNum 1700000000300) (VStr "ab12cd")
  /\ posted (editor (@run Reference.host [TimerFired 1; TimerFired 2] s3))
     = posted (editor ex_ready).
Proof.
  pose proof (@local_change_not_echoed Reference.host ex_ready
                (change_message (VStr "[1,2]") (VStr "block") (VBool true))
                1700000000300 (VStr "block") (VArr [VNum 1; VNum 2]) ∅
                eq_refl eq_refl eq_refl eq_refl eq_refl eq_refl eq_refl eq_refl
                eq_refl eq_refl eq_refl) as (Hec & _ & _ & Hfires).
  split; [exact Hec|]. exact (proj1 (proj2 (Hfires [1; 2]%nat))).
Defined.
